(** * ChatInterface: the chat request/response orchestration

    A shallow embedding of the [ChatInterface] React component
    (the multi-provider version, with its [addMessage] and [handleSubmit]),
    and the properties of its transcript, request construction and error
    handling.

    Conventions of the embedding.
    - A JavaScript string is a [string]; each character stands for the
      UTF-16 code unit of the same number, so the texts covered are those
      of the Latin-1 range.
    - A value that comes out of [response.json()] is a [Js.value]; TypeScript
      types are erased at run time, so a message's [content] is a [Js.value]
      too.
    - [handleSubmit] is an [async] function.  It is split where it first
      suspends: [handleSubmit] is the synchronous part up to the call of
      [fetch], [handleSubmit_resume] is the rest, run when the network call
      settles.  The second suspension, [await response.json()], touches no
      component state before it, so its outcome is carried by the response.
    - [Date.now()] and [new Date()] read the clock; the readings are inputs.
    - [e.preventDefault()] acts on the DOM event only and is left out. *)

From Stdlib Require Import ZArith QArith List String Ascii Bool Lia.
From Stdlib Require Import DecimalString DecimalZ DecimalPos.
Import ListNotations.

Set Warnings "-register-all".

Open Scope string_scope.
Open Scope Z_scope.

(** ** Strings *)

(** [WhiteSpace] and [LineTerminator] code units below 256:
    TAB, LF, VT, FF, CR, SP and NBSP. *)
Definition isWhiteSpace (c : ascii) : bool :=
  match nat_of_ascii c with
  | 9%nat | 10%nat | 11%nat | 12%nat | 13%nat | 32%nat | 160%nat => true
  | _ => false
  end.

Fixpoint trimStart (s : string) : string :=
  match s with
  | EmptyString => EmptyString
  | String c r => if isWhiteSpace c then trimStart r else s
  end.

Fixpoint trimEnd (s : string) : string :=
  match s with
  | EmptyString => EmptyString
  | String c r =>
      match trimEnd r with
      | EmptyString => if isWhiteSpace c then EmptyString else String c EmptyString
      | r' => String c r'
      end
  end.

(** [String.prototype.trim] *)
Definition trim (s : string) : string := trimEnd (trimStart s).

(** [s] is empty or holds white space only. *)
Fixpoint isBlank (s : string) : bool :=
  match s with
  | EmptyString => true
  | String c r => isWhiteSpace c && isBlank r
  end.

(** [s] is the empty string: [!s] on a string. *)
Definition isEmpty (s : string) : bool :=
  match s with EmptyString => true | _ => false end.

(** [Number.prototype.toString] on an integer of magnitude below 10^21
    (a clock reading, an HTTP status): plain decimal digits. *)
Definition intToString (z : Z) : string := NilZero.string_of_int (Z.to_int z).

(** [s] occurs in [t]: [t.includes(s)]. *)
Fixpoint includes (s t : string) : bool :=
  if String.prefix s t then true
  else match t with
       | EmptyString => false
       | String _ r => includes s r
       end.

(** ** JavaScript values *)

Module Js.

(** A parsed JSON document, and [undefined], which reading a missing
    property gives.  A number is the rational its double denotes; an
    object lists its own properties, each name once. *)
Inductive value : Type :=
| Undefined
| Null
| Bool (b : bool)
| Num (q : Q)
| Str (s : string)
| Arr (items : list value)
| Obj (props : list (string * value)).

(** A thrown [Error] object; the component reads only its [message]. *)
Record exn : Type := Error { message : string }.

(** What the language leaves to the engine: how a number prints, and the
    wording of the [TypeError] raised when a property of [undefined] or
    [null] is read. *)
Record Engine : Type := {
  numberToString : Q -> string;
  readErrorMessage : value -> string -> string
}.

(** A completion: a value, or an abrupt completion by [throw]. *)
Inductive completion (A : Type) : Type :=
| Normal (a : A)
| Throw (e : exn).
Arguments Normal {A} a.
Arguments Throw {A} e.

Definition bind {A B} (c : completion A) (k : A -> completion B) : completion B :=
  match c with
  | Normal a => k a
  | Throw e => Throw e
  end.

Definition isNullish (v : value) : bool :=
  match v with Undefined | Null => true | _ => false end.

(** ToBoolean *)
Definition truthy (v : value) : bool :=
  match v with
  | Undefined | Null => false
  | Bool b => b
  | Num q => negb (Qeq_bool q 0)
  | Str s => negb (isEmpty s)
  | Arr _ | Obj _ => true
  end.

(** [a || b] where [b] has no effect *)
Definition or_else (a b : value) : value := if truthy a then a else b.

(** [v === s] for a string literal [s] *)
Definition strictEqualsString (v : value) (s : string) : bool :=
  match v with Str t => String.eqb t s | _ => false end.

Fixpoint lookup (k : string) (props : list (string * value)) : value :=
  match props with
  | [] => Undefined
  | (k', v) :: rest => if String.eqb k k' then v else lookup k rest
  end.

Section WithEngine.
Variable E : Engine.

(** [v.k] for a property name [k] that no prototype defines
    ([error], [code], [message], [choices], [content], [candidates],
    [parts], [text]): an own property of an object, [undefined] on
    arrays and primitives, a [TypeError] on [undefined] and [null]. *)
Definition get (v : value) (k : string) : completion value :=
  match v with
  | Undefined | Null => Throw (Error (readErrorMessage E v k))
  | Obj props => Normal (lookup k props)
  | _ => Normal Undefined
  end.

(** [v?.k] *)
Definition getOpt (v : value) (k : string) : completion value :=
  if isNullish v then Normal Undefined else get v k.

(** [v[0]] *)
Definition first (v : value) : completion value :=
  match v with
  | Undefined | Null => Throw (Error (readErrorMessage E v "0"))
  | Arr items => Normal (nth 0 items Undefined)
  | Obj props => Normal (lookup "0" props)
  | Str (String c _) => Normal (Str (String c EmptyString))
  | _ => Normal Undefined
  end.

(** ToString, as a template literal applies it *)
Fixpoint toString (v : value) : string :=
  match v with
  | Undefined => "undefined"
  | Null => "null"
  | Bool true => "true"
  | Bool false => "false"
  | Num q => numberToString E q
  | Str s => s
  | Arr items =>
      (fix join (l : list value) : string :=
         match l with
         | [] => ""
         | [x] => if isNullish x then "" else toString x
         | x :: rest =>
             (if isNullish x then "" else toString x) ++ "," ++ join rest
         end) items
  | Obj _ => "[object Object]"
  end.
End WithEngine.

End Js.

Notation "x <- c ;; k" := (Js.bind c (fun x => k))
  (at level 61, c at next level, right associativity).

(** ** The data of the component *)

Inductive Role : Type := user | assistant.

Definition roleName (r : Role) : string :=
  match r with user => "user" | assistant => "assistant" end.

(** [interface Message]; [timestamp] is the [Date]'s time value. *)
Record Message : Type := {
  id : string;
  content : Js.value;
  role : Role;
  timestamp : Z
}.

Inductive AIProvider : Type := openai | gemini.

Record ProviderConfig : Type := {
  name : string;
  apiUrl : string;
  defaultModel : string;
  keyPrefix : string
}.

Definition providers (p : AIProvider) : ProviderConfig :=
  match p with
  | openai =>
      {| name := "OpenAI";
         apiUrl := "https://api.openai.com/v1/chat/completions";
         defaultModel := "gpt-3.5-turbo";
         keyPrefix := "sk-" |}
  | gemini =>
      {| name := "Google Gemini";
         apiUrl := "https://generativelanguage.googleapis.com/v1beta/models/gemini-1.5-flash-latest:generateContent";
         defaultModel := "gemini-1.5-flash-latest";
         keyPrefix := "AI" |}
  end.

(** [provider.toUpperCase()] *)
Definition providerUpperCase (p : AIProvider) : string :=
  match p with openai => "OPENAI" | gemini => "GEMINI" end.

(** The [useState] cells of the component. *)
Record State : Type := {
  messages : list Message;
  input : string;
  isLoading : bool;
  apiKey : string;
  tempApiKey : string;
  showApiKeySetup : bool;
  provider : AIProvider
}.

(** The initial values given to [useState]. *)
Definition initialState : State :=
  {| messages := []; input := ""; isLoading := false; apiKey := "";
     tempApiKey := ""; showApiKeySetup := false; provider := openai |}.

Definition setMessages (f : list Message -> list Message) (st : State) : State :=
  {| messages := f (messages st); input := input st; isLoading := isLoading st;
     apiKey := apiKey st; tempApiKey := tempApiKey st;
     showApiKeySetup := showApiKeySetup st; provider := provider st |}.

Definition setInput (s : string) (st : State) : State :=
  {| messages := messages st; input := s; isLoading := isLoading st;
     apiKey := apiKey st; tempApiKey := tempApiKey st;
     showApiKeySetup := showApiKeySetup st; provider := provider st |}.

Definition setIsLoading (b : bool) (st : State) : State :=
  {| messages := messages st; input := input st; isLoading := b;
     apiKey := apiKey st; tempApiKey := tempApiKey st;
     showApiKeySetup := showApiKeySetup st; provider := provider st |}.

(** The two clock readings of one [addMessage]: [Date.now()] and
    [new Date()], in milliseconds. *)
Record Tick : Type := { dateNow : Z; newDate : Z }.

(** The network, as the component sees it. *)
Record Request : Type := {
  url : string;
  method : string;
  headers : list (string * string);
  body : Js.value  (* the object given to JSON.stringify *)
}.

(** How [response.json()] settles. *)
Inductive Body : Type :=
| BodyJson (v : Js.value)
| BodyReject (e : Js.exn).

Record Response : Type := { status : Z; json : Body }.

(** [response.ok]: the status is in the range 200-299. *)
Definition ok (r : Response) : bool := (200 <=? status r) && (status r <=? 299).

(** How [fetch] settles: with a response, whatever its status, or with a
    rejection when the exchange itself did not complete. *)
Inductive FetchOutcome : Type :=
| Resolved (r : Response)
| Rejected (e : Js.exn).

(** What an accepted submission leaves in flight: the request given to
    [fetch] and the [provider] its continuation has closed over. *)
Record Pending : Type := { request : Request; closureProvider : AIProvider }.

(** The states of the orchestrator as the specification names them, read
    off the component's cells: [Submitting] when the in-flight flag is set,
    [AwaitingCredential] when no secret is held for the active provider,
    [Idle] otherwise.  Whether the credential setup is on screen is the
    cell [showApiKeySetup]. *)
Inductive Phase : Type := Idle | AwaitingCredential | Submitting.

Definition phase (st : State) : Phase :=
  if isLoading st then Submitting
  else if isEmpty (apiKey st) then AwaitingCredential
  else Idle.

(** ** [addMessage] *)

Definition addMessage (c : Js.value) (r : Role) (t : Tick) (st : State) : State :=
  let newMessage :=
    {| id := intToString (dateNow t); content := c; role := r;
       timestamp := newDate t |} in
  setMessages (fun prev => (prev ++ [newMessage])%list) st.

(** ** [handleSubmit], up to the call of [fetch] *)

Definition rolePair (msg : Message) : Js.value :=
  Js.Obj [("role", Js.Str (roleName (role msg))); ("content", content msg)].

(** The arguments of [fetch], from what the handler has closed over. *)
Definition fetchRequest (st : State) (userMessage : string) : Request :=
  let config := providers (provider st) in
  match provider st with
  | openai =>
      {| url := apiUrl config;
         method := "POST";
         headers := [("Content-Type", "application/json");
                     ("Authorization", "Bearer " ++ apiKey st)];
         body := Js.Obj
           [("model", Js.Str (defaultModel config));
            ("messages",
             Js.Arr (map rolePair (messages st)
                     ++ [Js.Obj [("role", Js.Str "user");
                                 ("content", Js.Str userMessage)]])%list);
            ("max_tokens", Js.Num (1000 # 1));
            ("temperature", Js.Num (7 # 10))] |}
  | gemini =>
      {| url := apiUrl config ++ "?key=" ++ apiKey st;
         method := "POST";
         headers := [("Content-Type", "application/json")];
         body := Js.Obj
           [("contents",
             Js.Arr [Js.Obj [("parts",
                              Js.Arr [Js.Obj [("text", Js.Str userMessage)]])]]);
            ("generationConfig",
             Js.Obj [("temperature", Js.Num (7 # 10));
                     ("maxOutputTokens", Js.Num (1000 # 1))])] |}
  end.

(** The handler up to [await fetch(...)]: the state it leaves, and the
    request in flight if it issued one. *)
Definition handleSubmit (st : State) (t : Tick) : State * option Pending :=
  if isEmpty (trim (input st)) || isLoading st || isEmpty (apiKey st)
  then (st, None)
  else
    let userMessage := trim (input st) in
    let st1 := setInput "" st in
    let st2 := addMessage (Js.Str userMessage) user t st1 in
    let st3 := setIsLoading true st2 in
    (st3, Some {| request := fetchRequest st userMessage;
                  closureProvider := provider st |}).

(** ** [handleSubmit], from the settling of [fetch] on *)

(** What the continuation can touch: the component's cells, as they are
    when it runs, and the console. *)
Record World : Type := { state : State; console : list (string * Js.exn) }.

Definition updState (f : State -> State) (w : World) : World :=
  {| state := f (state w); console := console w |}.

Definition consoleError (label : string) (e : Js.exn) (w : World) : World :=
  {| state := state w; console := (console w ++ [(label, e)])%list |}.

(** A statement: it changes the world and completes normally or throws. *)
Definition Stmt : Type := World -> World * Js.completion unit.

Definition perform (f : World -> World) : Stmt := fun w => (f w, Js.Normal tt).

Definition seq (s1 s2 : Stmt) : Stmt :=
  fun w =>
    match s1 w with
    | (w1, Js.Normal _) => s2 w1
    | (w1, Js.Throw e) => (w1, Js.Throw e)
    end.

(** [try { body } catch (error) { handler } finally { fin }] *)
Definition tryCatchFinally (body : Stmt) (handler : Js.exn -> Stmt) (fin : Stmt)
  : Stmt :=
  fun w =>
    let '(w1, r1) := body w in
    let '(w2, r2) :=
      match r1 with
      | Js.Normal _ => (w1, r1)
      | Js.Throw e => handler e w1
      end in
    let '(w3, r3) := fin w2 in
    (w3, match r3 with Js.Normal _ => r2 | Js.Throw e => Js.Throw e end).

Section WithEngine.
Variable E : Js.Engine.

(** [await fetch(...)] *)
Definition awaitFetch (out : FetchOutcome) : Js.completion Response :=
  match out with
  | Resolved r => Js.Normal r
  | Rejected e => Js.Throw e
  end.

(** [await response.json()] *)
Definition awaitJson (r : Response) : Js.completion Js.value :=
  match json r with
  | BodyJson v => Js.Normal v
  | BodyReject e => Js.Throw e
  end.

(** [await response.json().catch(() => ({}))] *)
Definition awaitJsonOrEmpty (r : Response) : Js.value :=
  match json r with
  | BodyJson v => v
  | BodyReject _ => Js.Obj []
  end.

(** [errorData.error?.k] *)
Definition errorField (errorData : Js.value) (k : string) : Js.completion Js.value :=
  err <- Js.get E errorData "error" ;;
  Js.getOpt E err k.

(** The text after ["... API Error: "] of the last case of each provider *)
Definition statusAndMessage (r : Response) (errorData : Js.value)
  : Js.completion string :=
  m <- errorField errorData "message" ;;
  Js.Normal (intToString (status r) ++ " - "
             ++ Js.toString E (Js.or_else m (Js.Str "Unknown error"))).

(** [if (!response.ok) { ... }] *)
Definition checkOk (p : AIProvider) (r : Response) : Js.completion unit :=
  if negb (ok r) then
    let errorData := awaitJsonOrEmpty r in
    match p with
    | openai =>
        quota <- (if status r =? 429
                  then code <- errorField errorData "code" ;;
                       Js.Normal (Js.strictEqualsString code "insufficient_quota")
                  else Js.Normal false) ;;
        if quota then
          Js.Throw (Js.Error "Your OpenAI account has exceeded its quota. Please check your billing details at platform.openai.com")
        else if status r =? 401 then
          Js.Throw (Js.Error "Invalid OpenAI API key. Please check your API key.")
        else if status r =? 429 then
          Js.Throw (Js.Error "Rate limit exceeded. Please wait a moment and try again.")
        else
          txt <- statusAndMessage r errorData ;;
          Js.Throw (Js.Error ("OpenAI API Error: " ++ txt))
    | gemini =>
        if (status r =? 401) || (status r =? 403) then
          Js.Throw (Js.Error "Invalid Gemini API key. Please check your API key.")
        else if status r =? 429 then
          Js.Throw (Js.Error "Rate limit exceeded. Please wait a moment and try again.")
        else
          txt <- statusAndMessage r errorData ;;
          Js.Throw (Js.Error ("Gemini API Error: " ++ txt))
    end
  else Js.Normal tt.

Definition fallbackText : string := "Sorry, I could not generate a response.".

(** [data.choices[0]?.message?.content || '...'] and
    [data.candidates[0]?.content?.parts[0]?.text || '...'] *)
Definition replyText (p : AIProvider) (data : Js.value) : Js.completion Js.value :=
  match p with
  | openai =>
      choices <- Js.get E data "choices" ;;
      choice <- Js.first E choices ;;
      msg <- Js.getOpt E choice "message" ;;
      c <- Js.getOpt E msg "content" ;;
      Js.Normal (Js.or_else c (Js.Str fallbackText))
  | gemini =>
      candidates <- Js.get E data "candidates" ;;
      candidate <- Js.first E candidates ;;
      c <- Js.getOpt E candidate "content" ;;
      part <- (if Js.isNullish c then Js.Normal Js.Undefined
               else parts <- Js.get E c "parts" ;; Js.first E parts) ;;
      txt <- Js.getOpt E part "text" ;;
      Js.Normal (Js.or_else txt (Js.Str fallbackText))
  end.

(** The [try] block from [await fetch] to the value of [assistantMessage] *)
Definition assistantMessage (p : AIProvider) (out : FetchOutcome)
  : Js.completion Js.value :=
  response <- awaitFetch out ;;
  _ <- checkOk p response ;;
  data <- awaitJson response ;;
  replyText p data.

(** The [try] block: it ends with [addMessage(assistantMessage, 'assistant')]. *)
Definition tryBlock (p : AIProvider) (out : FetchOutcome) (t : Tick) : Stmt :=
  fun w =>
    match assistantMessage p out with
    | Js.Normal a => (updState (addMessage a assistant t) w, Js.Normal tt)
    | Js.Throw e => (w, Js.Throw e)
    end.

Definition catchBlock (p : AIProvider) (t : Tick) (error : Js.exn) : Stmt :=
  seq (perform (consoleError (providerUpperCase p ++ " API Error:") error))
      (perform (updState
         (addMessage (Js.Str ("Error: " ++ Js.message error)) assistant t))).

Definition finallyBlock : Stmt := perform (updState (setIsLoading false)).

(** The continuation of [handleSubmit] once [fetch] has settled with [out];
    [p] is the provider the handler closed over, [t] the clock when the
    reply is added. *)
Definition handleSubmit_resume (p : AIProvider) (out : FetchOutcome) (t : Tick)
  : Stmt :=
  tryCatchFinally (tryBlock p out t) (catchBlock p t) finallyBlock.

End WithEngine.

(** An engine to run the component on: V8's wording of the read error;
    an integral number prints in decimal, as it does below 10^21, and
    another number as its integer part, a point and its first fraction
    digits. *)
Fixpoint fractionDigits (fuel : nat) (num den : Z) : string :=
  match fuel with
  | O => ""
  | S fuel' =>
      if num =? 0 then ""
      else intToString (10 * num / den)
           ++ fractionDigits fuel' ((10 * num) mod den) den
  end.

Definition sampleNumberToString (q : Q) : string :=
  let n := Qnum q in
  let d := Z.pos (Qden q) in
  let whole := Z.quot n d in
  let rest := Z.abs (Z.rem n d) in
  if rest =? 0 then intToString whole
  else (if (n <? 0) && (whole =? 0) then "-" else "")
       ++ intToString whole ++ "." ++ fractionDigits 17 rest d.

Definition sampleEngine : Js.Engine :=
  {| Js.numberToString := sampleNumberToString;
     Js.readErrorMessage := fun v k =>
       "Cannot read properties of "
       ++ (match v with Js.Null => "null" | _ => "undefined" end)
       ++ " (reading '" ++ k ++ "')" |}.

(** ** Sessions *)

(** The content of the assistant entry that the continuation adds: the
    reply, or the caught error's message after ["Error: "]. *)
Definition replyContent (E : Js.Engine) (p : AIProvider) (out : FetchOutcome)
  : Js.value :=
  match assistantMessage E p out with
  | Js.Normal a => a
  | Js.Throw e => Js.Str ("Error: " ++ Js.message e)
  end.

(** The network call failed: [fetch] rejected, or the status is not one of
    success. *)
Definition isFailure (out : FetchOutcome) : bool :=
  match out with
  | Resolved r => negb (ok r)
  | Rejected _ => true
  end.

(** One submission carried to its end: the user types [text] ([onChange]
    sets the draft), submits at [sentAt], and the network call settles with
    [settled] at [repliedAt]. *)
Record Submission : Type := {
  text : string;
  sentAt : Tick;
  settled : FetchOutcome;
  repliedAt : Tick
}.

Definition playSubmission (E : Js.Engine) (w : World) (s : Submission) : World :=
  match handleSubmit (setInput (text s) (state w)) (sentAt s) with
  | (st1, Some p) =>
      fst (handleSubmit_resume E (closureProvider p) (settled s) (repliedAt s)
             {| state := st1; console := console w |})
  | (st1, None) => {| state := st1; console := console w |}
  end.

(** A successful submission: some text, and a response with a success
    status. *)
Definition successful (s : Submission) : Prop :=
  trim (text s) <> "" /\
  exists r, settled s = Resolved r /\ ok r = true.

(** The two transcript entries of a submission *)
Definition exchange (E : Js.Engine) (p : AIProvider) (s : Submission)
  : list Message :=
  [ {| id := intToString (dateNow (sentAt s));
       content := Js.Str (trim (text s));
       role := user;
       timestamp := newDate (sentAt s) |};
    {| id := intToString (dateNow (repliedAt s));
       content := replyContent E p (settled s);
       role := assistant;
       timestamp := newDate (repliedAt s) |} ].

(** The state and the request of a submission that passes the guard. *)
Definition accepted (st : State) (t : Tick) : State * option Pending :=
  (setIsLoading true
     (addMessage (Js.Str (trim (input st))) user t (setInput "" st)),
   Some {| request := fetchRequest st (trim (input st));
           closureProvider := provider st |}).

(** ** Sample sessions *)

Definition sampleKeyedWorld : World :=
  {| state := {| messages := []; input := ""; isLoading := false;
                 apiKey := "sk-test"; tempApiKey := "";
                 showApiKeySetup := false; provider := openai |};
     console := [] |}.

Definition sampleTick (ms : Z) : Tick := {| dateNow := ms; newDate := ms |}.

Definition sampleReply (reply : string) : FetchOutcome :=
  Resolved {| status := 200;
              json := BodyJson (Js.Obj [("choices",
                Js.Arr [Js.Obj [("message",
                  Js.Obj [("content", Js.Str reply)])]])]) |}.

Definition sampleSubmissions : list Submission :=
  [ {| text := "Hello"; sentAt := sampleTick 1700000000000;
       settled := sampleReply "Hi there";
       repliedAt := sampleTick 1700000000850 |};
    {| text := " And again "; sentAt := sampleTick 1700000005000;
       settled := sampleReply "Still here";
       repliedAt := sampleTick 1700000005900 |} ].


(** A session whose request is in flight. *)
Definition sampleInFlightState : State :=
  fst (handleSubmit (setInput "Hello" (state sampleKeyedWorld))
                    (sampleTick 1700000000000)).

(** A session on the generate-content provider, with some history. *)
Definition sampleGeminiState : State :=
  {| messages :=
       [ {| id := "1699999990000"; content := Js.Str "Hola"; role := user;
            timestamp := 1699999990000 |};
         {| id := "1699999990700"; content := Js.Str "Buenas"; role := assistant;
            timestamp := 1699999990700 |} ];
     input := "Hello"; isLoading := false; apiKey := "AIza-test";
     tempApiKey := ""; showApiKeySetup := false; provider := gemini |}.

(** Error responses of the chat-completion provider. *)
Definition sampleQuotaBody : Js.value :=
  Js.Obj [("error", Js.Obj [("code", Js.Str "insufficient_quota")])].

Definition sampleRateBody : Js.value :=
  Js.Obj [("error", Js.Obj [("message", Js.Str "Rate limit reached");
                            ("code", Js.Str "rate_limit_exceeded")])].

Definition quotaText : string :=
  "Error: Your OpenAI account has exceeded its quota. Please check your billing details at platform.openai.com".

Definition rateLimitText : string :=
  "Error: Rate limit exceeded. Please wait a moment and try again.".

Definition invalidKeyText : string :=
  "Error: Invalid OpenAI API key. Please check your API key.".

(** A success response of the generate-content provider that carries no
    candidate: the prompt was blocked. *)
Definition sampleBlockedBody : Js.value :=
  Js.Obj [("promptFeedback", Js.Obj [("blockReason", Js.Str "SAFETY")])].

(** A submission whose request is refused at once, within the millisecond
    of its sending. *)
Definition sampleInstantFailure : Submission :=
  {| text := "Hello";
     sentAt := {| dateNow := 1700000000000; newDate := 1700000000000 |};
     settled := Rejected (Js.Error "Failed to fetch");
     repliedAt := {| dateNow := 1700000000000; newDate := 1700000000000 |} |}.

(** ** The credential store: [localStorage] *)

(** The items of [localStorage], each key once.  Every write is taken to
    succeed: the storage is there and is not full. *)
Definition Storage : Type := list (string * string).

(** [localStorage.getItem(k)]; [None] is [null]. *)
Fixpoint getItem (k : string) (ls : Storage) : option string :=
  match ls with
  | [] => None
  | (k', v) :: rest => if String.eqb k k' then Some v else getItem k rest
  end.

(** [localStorage.setItem(k, v)] *)
Fixpoint setItem (k v : string) (ls : Storage) : Storage :=
  match ls with
  | [] => [(k, v)]
  | (k', v') :: rest =>
      if String.eqb k k' then (k, v) :: rest else (k', v') :: setItem k v rest
  end.

(** The string a value of type [AIProvider] is. *)
Definition providerName (p : AIProvider) : string :=
  match p with openai => "openai" | gemini => "gemini" end.

(** The key of a provider's secret: the template [${provider}-api-key]. *)
Definition apiKeyItem (providerString : string) : string :=
  providerString ++ "-api-key".

Definition setApiKey (s : string) (st : State) : State :=
  {| messages := messages st; input := input st; isLoading := isLoading st;
     apiKey := s; tempApiKey := tempApiKey st;
     showApiKeySetup := showApiKeySetup st; provider := provider st |}.

Definition setTempApiKey (s : string) (st : State) : State :=
  {| messages := messages st; input := input st; isLoading := isLoading st;
     apiKey := apiKey st; tempApiKey := s;
     showApiKeySetup := showApiKeySetup st; provider := provider st |}.

Definition setShowApiKeySetup (b : bool) (st : State) : State :=
  {| messages := messages st; input := input st; isLoading := isLoading st;
     apiKey := apiKey st; tempApiKey := tempApiKey st;
     showApiKeySetup := b; provider := provider st |}.

Definition setProvider (p : AIProvider) (st : State) : State :=
  {| messages := messages st; input := input st; isLoading := isLoading st;
     apiKey := apiKey st; tempApiKey := tempApiKey st;
     showApiKeySetup := showApiKeySetup st; provider := p |}.

(** ** The effect run on mount *)

(** The own properties of the [providers] object. *)
Definition ownProvider (s : string) : option AIProvider :=
  if String.eqb s "openai" then Some openai
  else if String.eqb s "gemini" then Some gemini
  else None.

(** The properties every object literal inherits; [providers[s]] is truthy
    for them too. *)
Definition inheritedNames : list string :=
  ["constructor"; "toString"; "toLocaleString"; "valueOf"; "hasOwnProperty";
   "isPrototypeOf"; "propertyIsEnumerable"; "__proto__";
   "__defineGetter__"; "__defineSetter__";
   "__lookupGetter__"; "__lookupSetter__"].

Definition isInherited (s : string) : bool :=
  existsb (String.eqb s) inheritedNames.

(** [savedProvider || 'openai'] *)
Definition orOpenai (savedProvider : option string) : string :=
  match savedProvider with
  | Some s => if isEmpty s then "openai" else s
  | None => "openai"
  end.

(** The first [useEffect]: it restores the provider and its secret from
    [localStorage], or shows the credential setup.  The result is [None]
    where the stored provider names an inherited property: the component
    then holds a provider that is no [AIProvider], which this embedding
    does not cover (there, a submission finds neither provider's branch,
    calls no [fetch], and adds the user entry and a read error).  The
    properties of sessions that depend on it say so:
    [recordedProviderCovered]. *)
Definition mountEffect (ls : Storage) (st : State) : option State :=
  let savedProvider := getItem "ai-provider" ls in
  let restored :=
    match savedProvider with
    | None => Some st
    | Some s =>
        if isEmpty s then Some st
        else match ownProvider s with
             | Some p => Some (setProvider p st)
             | None => if isInherited s then None else Some st
             end
    end in
  match restored with
  | None => None
  | Some st1 =>
      match getItem (apiKeyItem (orOpenai savedProvider)) ls with
      | Some savedApiKey =>
          if isEmpty savedApiKey then Some (setShowApiKeySetup true st1)
          else Some (setApiKey savedApiKey st1)
      | None => Some (setShowApiKeySetup true st1)
      end
  end.

(** ** The handlers of the credential setup *)

Definition handleApiKeySubmit (st : State) (ls : Storage) : State * Storage :=
  if isEmpty (trim (tempApiKey st)) then (st, ls)
  else
    let ls1 := setItem (apiKeyItem (providerName (provider st))) (tempApiKey st) ls in
    let ls2 := setItem "ai-provider" (providerName (provider st)) ls1 in
    (setTempApiKey "" (setShowApiKeySetup false (setApiKey (tempApiKey st) st)),
     ls2).

Definition handleChangeApiKey (st : State) : State :=
  setTempApiKey (apiKey st) (setShowApiKeySetup true st).

Definition handleProviderChange (newProvider : AIProvider) (ls : Storage)
  (st : State) : State :=
  let st1 := setProvider newProvider st in
  match getItem (apiKeyItem (providerName newProvider)) ls with
  | Some savedApiKey =>
      if isEmpty savedApiKey then setTempApiKey "" (setApiKey "" st1)
      else setTempApiKey savedApiKey (setApiKey savedApiKey st1)
  | None => setTempApiKey "" (setApiKey "" st1)
  end.

(** ** What is on screen *)

(** The component renders the credential setup when [showApiKeySetup] is
    set and the chat otherwise; a handler can run only from the view that
    binds it. *)
Inductive View : Type := SetupView | ChatView.

Definition view (st : State) : View :=
  if showApiKeySetup st then SetupView else ChatView.

(** [disabled] of the send button *)
Definition sendDisabled (st : State) : bool :=
  isEmpty (trim (input st)) || isLoading st.

(** [disabled] of the draft input *)
Definition draftDisabled (st : State) : bool := isLoading st.

(** ** Sessions of the component *)

(** A session: the component's cells and the console, the storage, the
    requests given to [fetch] that have not settled, and all the requests
    given to [fetch] so far. *)
Record Session : Type := {
  world : World;
  storage : Storage;
  inFlight : list Pending;
  sent : list Request
}.

Definition withState (st : State) (s : Session) : Session :=
  {| world := {| state := st; console := console (world s) |};
     storage := storage s; inFlight := inFlight s; sent := sent s |}.

(** What can happen to a mounted component: the user types a draft,
    submits it or opens the settings in the chat view; types a secret,
    selects a provider or saves in the credential setup; the network call
    in flight settles. *)
Inductive Event : Type :=
| TypeDraft (txt : string)
| Submit (t : Tick)
| OpenSettings
| TypeKey (txt : string)
| SelectProvider (p : AIProvider)
| SaveKey
| Settle (out : FetchOutcome) (t : Tick).

(** One event, handled between two renders; [None] where the view on
    screen does not offer it (the draft input is disabled while a request
    is in flight), or where nothing is in flight to settle. *)
Definition step (E : Js.Engine) (s : Session) (e : Event) : option Session :=
  let st := state (world s) in
  match e with
  | TypeDraft txt =>
      if showApiKeySetup st || draftDisabled st then None
      else Some (withState (setInput txt st) s)
  | Submit t =>
      if showApiKeySetup st then None
      else match handleSubmit st t with
           | (st1, Some p) =>
               Some {| world := {| state := st1; console := console (world s) |};
                       storage := storage s;
                       inFlight := (inFlight s ++ [p])%list;
                       sent := (sent s ++ [request p])%list |}
           | (st1, None) => Some (withState st1 s)
           end
  | OpenSettings =>
      if showApiKeySetup st then None
      else Some (withState (handleChangeApiKey st) s)
  | TypeKey txt =>
      if showApiKeySetup st then Some (withState (setTempApiKey txt st) s)
      else None
  | SelectProvider p =>
      if showApiKeySetup st
      then Some (withState (handleProviderChange p (storage s) st) s)
      else None
  | SaveKey =>
      if showApiKeySetup st
      then let '(st1, ls1) := handleApiKeySubmit st (storage s) in
           Some {| world := {| state := st1; console := console (world s) |};
                   storage := ls1; inFlight := inFlight s; sent := sent s |}
      else None
  | Settle out t =>
      match inFlight s with
      | [] => None
      | p :: rest =>
          Some {| world := fst (handleSubmit_resume E (closureProvider p) out t
                                  (world s));
                  storage := storage s; inFlight := rest; sent := sent s |}
      end
  end.

(** The events of a list in turn; one the session does not offer is
    skipped. *)
Definition runEvents (E : Js.Engine) (s : Session) (es : list Event) : Session :=
  fold_left (fun s e => match step E s e with Some s' => s' | None => s end)
            es s.

(** The session of a component just mounted on the storage [ls]. *)
Definition startSession (ls : Storage) : option Session :=
  match mountEffect ls initialState with
  | Some st => Some {| world := {| state := st; console := [] |};
                       storage := ls; inFlight := []; sent := [] |}
  | None => None
  end.

(** The sessions a mounted component can be in. *)
Inductive reachable (E : Js.Engine) (ls : Storage) : Session -> Prop :=
| reachable_start (s : Session) :
    startSession ls = Some s -> reachable E ls s
| reachable_step (s s' : Session) (e : Event) :
    reachable E ls s -> step E s e = Some s' -> reachable E ls s'.

(** The provider stored, if any, is one of the two: what the component
    itself writes. *)
Definition storedProviderOk (ls : Storage) : Prop :=
  match getItem "ai-provider" ls with
  | None => True
  | Some s => ownProvider s <> None
  end.

(** The roles of [n] complete exchanges. *)
Fixpoint exchangeRoles (n : nat) : list Role :=
  match n with
  | O => []
  | S n' => user :: assistant :: exchangeRoles n'
  end.

(** A text as [trim] leaves it: not empty, no white space at either end. *)
Definition isTrimmed (s : string) : Prop := s <> "" /\ trim s = s.

(** ** The page: [Index] *)

(** The cells of the page.  The opacity is the number the slider gives,
    passed on as it is. *)
Record IndexState : Type := { opacity : Q; isControlsVisible : bool }.

Definition initialIndexState : IndexState :=
  {| opacity := 95 # 100; isControlsVisible := true |}.

(** The slider gives its one value ([values[0]]); the eye button toggles. *)
Inductive IndexEvent : Type :=
| OpacityChange (v : Q)
| ToggleVisibility.

(** One event of the controls; [None] where the controls are not
    rendered: [{isControlsVisible && (<TransparencyControls ... />)}]. *)
Definition indexStep (s : IndexState) (e : IndexEvent) : option IndexState :=
  if isControlsVisible s then
    match e with
    | OpacityChange v =>
        Some {| opacity := v; isControlsVisible := isControlsVisible s |}
    | ToggleVisibility =>
        Some {| opacity := opacity s;
                isControlsVisible := negb (isControlsVisible s) |}
    end
  else None.

Definition runIndex (s : IndexState) (es : list IndexEvent) : IndexState :=
  fold_left (fun s e => match indexStep s e with Some s' => s' | None => s end)
            es s.

(** ** More sample data *)

(** The setup with a secret typed for the generate-content provider. *)
Definition sampleSetupState : State :=
  {| messages := []; input := ""; isLoading := false; apiKey := "";
     tempApiKey := "AIza-test"; showApiKeySetup := true; provider := gemini |}.

Definition sampleStorage : Storage :=
  [("openai-api-key", "sk-test"); ("ai-provider", "openai")].

(** A storage whose recorded provider is none of the two. *)
Definition sampleStaleStorage : Storage :=
  [("ai-provider", "claude"); ("claude-api-key", "sk-ant-test")].

(** ** What every session keeps *)

(** One request at most is in flight, and the in-flight flag says
    whether one is. *)
Definition singleFlight (s : Session) : Prop :=
  (isLoading (state (world s)) = false /\ inFlight s = [])
  \/ (isLoading (state (world s)) = true /\ exists p, inFlight s = [p]).

(** The transcript is made of complete exchanges, followed by the user
    entry of the request in flight if there is one; one request was sent
    per user entry. *)
Definition exchangesInOrder (s : Session) : Prop :=
  exists n : nat,
    map role (messages (state (world s)))
    = (exchangeRoles n
       ++ (if isLoading (state (world s)) then [user] else []))%list
    /\ List.length (sent s)
       = (n + (if isLoading (state (world s)) then 1 else 0))%nat.

(** No entry is empty, and a user entry is a trimmed text. *)
Definition entriesFilled (s : Session) : Prop :=
  Forall (fun m =>
            Js.truthy (content m) = true
            /\ (role m = user -> exists txt, content m = Js.Str txt /\ isTrimmed txt))
         (messages (state (world s))).

Definition sessionInv (s : Session) : Prop :=
  singleFlight s
  /\ (showApiKeySetup (state (world s)) = false -> apiKey (state (world s)) <> "")
  /\ (isLoading (state (world s)) = true -> input (state (world s)) = "")
  /\ exchangesInOrder s
  /\ entriesFilled s.

(** The secret held is the one stored for the active provider. *)
Definition secretOfProvider (s : Session) : Prop :=
  apiKey (state (world s)) = ""
  \/ getItem (apiKeyItem (providerName (provider (state (world s))))) (storage s)
     = Some (apiKey (state (world s))).

(** A session started on [sampleStorage], with a draft typed. *)
Definition sampleSession : Session :=
  {| world := {| state := setInput "Hello" (setApiKey "sk-test" initialState);
                 console := [] |};
     storage := sampleStorage; inFlight := []; sent := [] |}.

(** The same with its draft submitted. *)
Definition sampleBusySession : Session :=
  {| world := {| state := sampleInFlightState; console := [] |};
     storage := sampleStorage;
     inFlight := [ {| request := fetchRequest (state (world sampleSession)) "Hello";
                      closureProvider := openai |} ];
     sent := [fetchRequest (state (world sampleSession)) "Hello"] |}.

(** No event of the list is the settling of a request. *)
Definition noSettle (es : list Event) : Prop :=
  Forall (fun e => match e with Settle _ _ => False | _ => True end) es.

(** Events of a user busy in the settings while a request is in flight:
    a submission that is ignored, the settings opened, the other provider
    selected, a secret typed and saved. *)
Definition sampleBusyEvents : list Event :=
  [Submit (sampleTick 1700000000100); OpenSettings; SelectProvider gemini;
   TypeKey "AIza-test"; SaveKey].

(** What the last case of each provider's error handling puts before the
    status. *)
Definition errorPrefix (p : AIProvider) : string :=
  match p with
  | openai => "OpenAI API Error: "
  | gemini => "Gemini API Error: "
  end.

(** The statuses each provider's error handling gives a text of their
    own. *)
Definition hasOwnText (p : AIProvider) (status : Z) : bool :=
  match p with
  | openai => (status =? 401) || (status =? 429)
  | gemini => (status =? 401) || (status =? 403) || (status =? 429)
  end.

(** A server error with a message, and a reply of the generate-content
    provider. *)
Definition sampleServerError : Response :=
  {| status := 500;
     json := BodyJson (Js.Obj [("error",
               Js.Obj [("message", Js.Str "The server had an error")])]) |}.

Definition sampleGeminiReply : Js.value :=
  Js.Obj [("candidates",
           Js.Arr [Js.Obj [("content",
             Js.Obj [("parts", Js.Arr [Js.Obj [("text", Js.Str "Hola")]])])]])].

(** A success response of the generate-content provider whose candidate
    was cut off: a content without parts. *)
Definition sampleCutOffBody : Js.value :=
  Js.Obj [("candidates",
           Js.Arr [Js.Obj [("content", Js.Obj [("role", Js.Str "model")]);
                           ("finishReason", Js.Str "MAX_TOKENS")]])].

(** ** The earlier component, with the chat-completion provider alone *)

Module V1.

(** The [useState] cells of the earlier component: it has no provider. *)
Record State : Type := {
  messages : list Message;
  input : string;
  isLoading : bool;
  apiKey : string;
  tempApiKey : string;
  showApiKeySetup : bool
}.

Definition initialState : State :=
  {| messages := []; input := ""; isLoading := false; apiKey := "";
     tempApiKey := ""; showApiKeySetup := false |}.

(** The effect run on mount: the one item it reads is [openai-api-key]. *)
Definition mountEffect (ls : Storage) (st : State) : State :=
  match getItem "openai-api-key" ls with
  | Some savedApiKey =>
      if isEmpty savedApiKey
      then {| messages := messages st; input := input st;
              isLoading := isLoading st; apiKey := apiKey st;
              tempApiKey := tempApiKey st; showApiKeySetup := true |}
      else {| messages := messages st; input := input st;
              isLoading := isLoading st; apiKey := savedApiKey;
              tempApiKey := tempApiKey st;
              showApiKeySetup := showApiKeySetup st |}
  | None =>
      {| messages := messages st; input := input st;
         isLoading := isLoading st; apiKey := apiKey st;
         tempApiKey := tempApiKey st; showApiKeySetup := true |}
  end.

Definition handleApiKeySubmit (st : State) (ls : Storage) : State * Storage :=
  if isEmpty (trim (tempApiKey st)) then (st, ls)
  else
    ({| messages := messages st; input := input st; isLoading := isLoading st;
        apiKey := tempApiKey st; tempApiKey := ""; showApiKeySetup := false |},
     setItem "openai-api-key" (tempApiKey st) ls).

Definition addMessage (c : Js.value) (r : Role) (t : Tick) (st : State) : State :=
  let newMessage :=
    {| id := intToString (dateNow t); content := c; role := r;
       timestamp := newDate t |} in
  {| messages := (messages st ++ [newMessage])%list; input := input st;
     isLoading := isLoading st; apiKey := apiKey st;
     tempApiKey := tempApiKey st; showApiKeySetup := showApiKeySetup st |}.

(** The arguments of [fetch] *)
Definition fetchRequest (st : State) (userMessage : string) : Request :=
  {| url := "https://api.openai.com/v1/chat/completions";
     method := "POST";
     headers := [("Content-Type", "application/json");
                 ("Authorization", "Bearer " ++ apiKey st)];
     body := Js.Obj
       [("model", Js.Str "gpt-3.5-turbo");
        ("messages",
         Js.Arr (map rolePair (messages st)
                 ++ [Js.Obj [("role", Js.Str "user");
                             ("content", Js.Str userMessage)]])%list);
        ("max_tokens", Js.Num (1000 # 1));
        ("temperature", Js.Num (7 # 10))] |}.

(** [handleSubmit], up to the call of [fetch] *)
Definition handleSubmit (st : State) (t : Tick) : State * option Request :=
  if isEmpty (trim (input st)) || isLoading st || isEmpty (apiKey st)
  then (st, None)
  else
    let userMessage := trim (input st) in
    let st1 := {| messages := messages st; input := ""; isLoading := isLoading st;
                  apiKey := apiKey st; tempApiKey := tempApiKey st;
                  showApiKeySetup := showApiKeySetup st |} in
    let st2 := addMessage (Js.Str userMessage) user t st1 in
    let st3 := {| messages := messages st2; input := input st2; isLoading := true;
                  apiKey := apiKey st2; tempApiKey := tempApiKey st2;
                  showApiKeySetup := showApiKeySetup st2 |} in
    (st3, Some (fetchRequest st userMessage)).

(** [if (!response.ok) { ... }] *)
Definition checkOk (E : Js.Engine) (r : Response) : Js.completion unit :=
  if negb (ok r) then
    let errorData := awaitJsonOrEmpty r in
    quota <- (if status r =? 429
              then code <- errorField E errorData "code" ;;
                   Js.Normal (Js.strictEqualsString code "insufficient_quota")
              else Js.Normal false) ;;
    if quota then
      Js.Throw (Js.Error "Your OpenAI account has exceeded its quota. Please check your billing details at platform.openai.com")
    else if status r =? 401 then
      Js.Throw (Js.Error "Invalid API key. Please check your OpenAI API key.")
    else if status r =? 429 then
      Js.Throw (Js.Error "Rate limit exceeded. Please wait a moment and try again.")
    else
      txt <- statusAndMessage E r errorData ;;
      Js.Throw (Js.Error ("API Error: " ++ txt))
  else Js.Normal tt.

(** The [try] block from [await fetch] to the value of [assistantMessage] *)
Definition assistantMessage (E : Js.Engine) (out : FetchOutcome)
  : Js.completion Js.value :=
  response <- awaitFetch out ;;
  _ <- checkOk E response ;;
  data <- awaitJson response ;;
  choices <- Js.get E data "choices" ;;
  choice <- Js.first E choices ;;
  msg <- Js.getOpt E choice "message" ;;
  c <- Js.getOpt E msg "content" ;;
  Js.Normal (Js.or_else c (Js.Str "Sorry, I could not generate a response.")).

End V1.

(** The cells the two components share. *)
Definition asV1 (st : State) : V1.State :=
  {| V1.messages := messages st; V1.input := input st;
     V1.isLoading := isLoading st; V1.apiKey := apiKey st;
     V1.tempApiKey := tempApiKey st;
     V1.showApiKeySetup := showApiKeySetup st |}.

(** Where the earlier component has a text of another wording: a status
    401, and a failure status without a text of its own. *)
Definition rewordedSince (out : FetchOutcome) : bool :=
  match out with
  | Resolved r => negb (ok r) && negb (status r =? 429)
  | Rejected _ => false
  end.

(** The setup of the earlier component with a secret typed. *)
Definition sampleV1SetupState : V1.State :=
  {| V1.messages := []; V1.input := ""; V1.isLoading := false;
     V1.apiKey := ""; V1.tempApiKey := "sk-old";
     V1.showApiKeySetup := true |}.

(** The readings of [Date.now()] that a submission carried to its end
    uses for its two entries. *)
Definition readings (s : Submission) : list Z :=
  [dateNow (sentAt s); dateNow (repliedAt s)].

(** ** What the storage records and what a body carries *)

(** The provider recorded in the storage, if any, is not a name that every
    object inherits: then the mounted component holds a provider that is
    an [AIProvider], and [mountEffect] gives its state. *)
Definition recordedProviderCovered (ls : Storage) : Prop :=
  match getItem "ai-provider" ls with
  | Some s => isInherited s = false
  | None => True
  end.

(** The parsed body carries the error code [insufficient_quota]: it is an
    object whose [error] is an object whose [code] is that text. *)
Definition carriesQuotaCode (v : Js.value) : bool :=
  match v with
  | Js.Obj props =>
      match Js.lookup "error" props with
      | Js.Obj eprops =>
          match Js.lookup "code" eprops with
          | Js.Str c => String.eqb c "insufficient_quota"
          | _ => false
          end
      | _ => false
      end
  | _ => false
  end.



(** A request failing while the user, in the settings, has selected the
    provider for which nothing is stored. *)
Definition sampleSwitchEvents : list Event :=
  [Submit (sampleTick 1700000000000); OpenSettings; SelectProvider gemini;
   Settle (Rejected (Js.Error "Failed to fetch")) (sampleTick 1700000000900)].
(** * Properties *)

(** ** The guard and the two halves of [handleSubmit] *)

Lemma isEmpty_true (s : string) : isEmpty s = true <-> s = "".
Proof. destruct s; simpl; split; congruence. Qed.

Lemma isEmpty_false (s : string) : isEmpty s = false <-> s <> "".
Proof. destruct s; simpl; split; congruence. Qed.

Lemma handleSubmit_ignored (st : State) (t : Tick) :
  trim (input st) = "" \/ isLoading st = true \/ apiKey st = "" ->
  handleSubmit st t = (st, None).
Proof.
  intros H. unfold handleSubmit.
  destruct H as [H | [H | H]].
  - apply isEmpty_true in H. now rewrite H.
  - rewrite H. now rewrite orb_true_r.
  - apply isEmpty_true in H. rewrite H. now rewrite orb_true_r.
Qed.

Lemma handleSubmit_accepted (st : State) (t : Tick) :
  trim (input st) <> "" -> isLoading st = false -> apiKey st <> "" ->
  handleSubmit st t = accepted st t.
Proof.
  intros Hi Hl Hk. unfold handleSubmit.
  apply isEmpty_false in Hi. apply isEmpty_false in Hk.
  now rewrite Hi, Hl, Hk.
Qed.

Lemma handleSubmit_dispatch_inv (st st1 : State) (t : Tick) (p : Pending) :
  handleSubmit st t = (st1, Some p) ->
  (trim (input st) <> "" /\ isLoading st = false /\ apiKey st <> "")
  /\ (st1, Some p) = accepted st t.
Proof.
  unfold handleSubmit.
  destruct (isEmpty (trim (input st))) eqn:Hi; simpl; [discriminate|].
  destruct (isLoading st) eqn:Hl; simpl; [discriminate|].
  destruct (isEmpty (apiKey st)) eqn:Hk; simpl; [discriminate|].
  intros H. split.
  - repeat split; try reflexivity; now apply isEmpty_false.
  - now rewrite <- H.
Qed.

(** The continuation always runs to its end: it adds one assistant entry,
    clears the flag and completes normally. *)
Lemma handleSubmit_resume_eq
  (E : Js.Engine) (p : AIProvider) (out : FetchOutcome) (t : Tick) (w : World) :
  handleSubmit_resume E p out t w =
  ({| state := setIsLoading false
                 (addMessage (replyContent E p out) assistant t (state w));
      console :=
        match assistantMessage E p out with
        | Js.Normal _ => console w
        | Js.Throw e =>
            (console w
             ++ [((providerUpperCase p ++ " API Error:")%string, e)])%list
        end |},
   Js.Normal tt).
Proof.
  unfold handleSubmit_resume, tryCatchFinally, tryBlock, replyContent.
  destruct (assistantMessage E p out) as [a | e]; reflexivity.
Qed.

(** A response without a success status never reaches the reply: the
    [try] block throws. *)
Lemma checkOk_failure_throws (E : Js.Engine) (p : AIProvider) (r : Response) :
  ok r = false -> exists e, checkOk E p r = Js.Throw e.
Proof.
  intros Hok. unfold checkOk. rewrite Hok. simpl.
  destruct p.
  - destruct (status r =? 429) eqn:H429.
    + destruct (errorField E (awaitJsonOrEmpty r) "code") as [code | e]; simpl;
        [| eauto].
      destruct (Js.strictEqualsString code "insufficient_quota"); [eauto|].
      destruct (status r =? 401); eauto.
    + simpl. destruct (status r =? 401); [eauto|].
      unfold statusAndMessage.
      destruct (errorField E (awaitJsonOrEmpty r) "message"); simpl; eauto.
  - destruct ((status r =? 401) || (status r =? 403)); [eauto|].
    destruct (status r =? 429); [eauto|].
    unfold statusAndMessage.
    destruct (errorField E (awaitJsonOrEmpty r) "message"); simpl; eauto.
Qed.

Lemma assistantMessage_failure_throws
  (E : Js.Engine) (p : AIProvider) (out : FetchOutcome) :
  isFailure out = true -> exists e, assistantMessage E p out = Js.Throw e.
Proof.
  destruct out as [r | e]; simpl; intros H.
  - apply negb_true_iff in H.
    destruct (checkOk_failure_throws E p r H) as [e He].
    exists e. unfold assistantMessage. simpl. now rewrite He.
  - now exists e.
Qed.

(** ** The transcript *)

(** A submission that passes the guard, whatever the network then does,
    leaves the two entries of its exchange after the entries already there
    and the session ready for the next one. *)
Lemma playSubmission_accepted (E : Js.Engine) (w : World) (s : Submission) :
  isLoading (state w) = false -> apiKey (state w) <> "" ->
  trim (text s) <> "" ->
  let w' := playSubmission E w s in
  messages (state w')
  = (messages (state w) ++ exchange E (provider (state w)) s)%list
  /\ isLoading (state w') = false
  /\ apiKey (state w') = apiKey (state w)
  /\ provider (state w') = provider (state w)
  /\ showApiKeySetup (state w') = showApiKeySetup (state w)
  /\ input (state w') = "".
Proof.
  intros Hl Hk Ht w'. subst w'. unfold playSubmission.
  rewrite handleSubmit_accepted by (simpl; assumption).
  unfold accepted. simpl closureProvider.
  rewrite handleSubmit_resume_eq. simpl.
  repeat split. now rewrite <- app_assoc.
Qed.

(** C1: through any sequence of successful submissions (some text, a
    credential, no request in flight, a success status), each submission
    appends exactly two entries to the transcript, the user's text and then
    the assistant's entry, after the entries that were there, which stay as
    they were and in their order. *)
Theorem successful_submissions_append_exchanges
  (E : Js.Engine) (subs : list Submission) (w : World) :
  isLoading (state w) = false ->
  apiKey (state w) <> "" ->
  Forall successful subs ->
  let w' := fold_left (playSubmission E) subs w in
  let p := provider (state w) in
  messages (state w') = (messages (state w) ++ flat_map (exchange E p) subs)%list
  /\ List.length (messages (state w'))
     = (List.length (messages (state w)) + 2 * List.length subs)%nat
  /\ (forall s, map role (exchange E p s) = [user; assistant]
                /\ map content (exchange E p s)
                   = [Js.Str (trim (text s)); replyContent E p (settled s)]).
Proof.
  intros Hl Hk Hs. cbv zeta.
  assert (Hmsgs :
    messages (state (fold_left (playSubmission E) subs w))
    = (messages (state w)
       ++ flat_map (exchange E (provider (state w))) subs)%list).
  { revert w Hl Hk. induction Hs as [| s subs [Ht _] _ IH]; intros w Hl Hk.
    - simpl. now rewrite app_nil_r.
    - simpl fold_left.
      destruct (playSubmission_accepted E w s Hl Hk Ht)
        as (Hm & Hl' & Hk' & Hp' & _).
      rewrite IH by (rewrite ?Hk'; assumption).
      rewrite Hm, Hp'. simpl flat_map. now rewrite <- app_assoc. }
  split; [exact Hmsgs|]. split.
  - rewrite Hmsgs, length_app. f_equal.
    clear. induction subs as [| s subs IH]; simpl; [reflexivity|].
    rewrite IH. lia.
  - intros s. split; reflexivity.
Qed.

Lemma successful_submissions_append_exchanges_witness :
  map (fun m => (role m, content m))
      (messages (state (fold_left (playSubmission sampleEngine)
                                  sampleSubmissions sampleKeyedWorld)))
  = [(user, Js.Str "Hello"); (assistant, Js.Str "Hi there");
     (user, Js.Str "And again"); (assistant, Js.Str "Still here")].
Proof.
  assert (Hs : Forall successful sampleSubmissions).
  { repeat constructor; simpl; try discriminate;
      eexists; split; reflexivity. }
  assert (Hk : apiKey (state sampleKeyedWorld) <> "") by discriminate.
  rewrite (proj1 (successful_submissions_append_exchanges
                    sampleEngine sampleSubmissions sampleKeyedWorld
                    eq_refl Hk Hs)).
  reflexivity.
Defined.

(** ** The guard *)

Lemma trimStart_cases (s : string) :
  (trimStart s = "" /\ isBlank s = true)
  \/ (exists c r, trimStart s = String c r /\ isWhiteSpace c = false
                  /\ isBlank s = false).
Proof.
  induction s as [| c r IH]; simpl.
  - now left.
  - destruct (isWhiteSpace c) eqn:Hc; simpl.
    + exact IH.
    + right. exists c, r. now rewrite Hc.
Qed.

Lemma trimEnd_nonempty (c : ascii) (r : string) :
  isWhiteSpace c = false -> trimEnd (String c r) <> "".
Proof.
  intros Hc. simpl. destruct (trimEnd r); [now rewrite Hc | discriminate].
Qed.

(** [trim] leaves nothing exactly of the texts that are empty or hold
    white space only. *)
Lemma trim_empty_iff_blank (s : string) : trim s = "" <-> isBlank s = true.
Proof.
  unfold trim.
  destruct (trimStart_cases s) as [[Hs Hb] | (c & r & Hs & Hc & Hb)];
    rewrite Hs, Hb.
  - split; reflexivity.
  - split; [|discriminate]. intros H. now apply trimEnd_nonempty in H.
Qed.

(** C2: with a request in flight, or with a draft that is empty or holds
    white space only, submitting does nothing: the state is the one before
    (same transcript, same length, same phase) and no network call is
    issued. *)
Theorem submit_in_flight_or_blank_is_noop (st : State) (t : Tick) :
  isLoading st = true \/ isBlank (input st) = true ->
  handleSubmit st t = (st, None)
  /\ List.length (messages (fst (handleSubmit st t))) = List.length (messages st)
  /\ phase (fst (handleSubmit st t)) = phase st
  /\ snd (handleSubmit st t) = None.
Proof.
  intros H.
  assert (Heq : handleSubmit st t = (st, None)).
  { apply handleSubmit_ignored. destruct H as [H | H]; [now right; left|].
    left. now apply trim_empty_iff_blank. }
  rewrite Heq. simpl. repeat split.
Qed.

Lemma submit_in_flight_or_blank_is_noop_witness :
  isLoading sampleInFlightState = true
  /\ handleSubmit (setInput "again" sampleInFlightState) (sampleTick 1700000000400)
     = (setInput "again" sampleInFlightState, None)
  /\ handleSubmit (setInput "   " (state sampleKeyedWorld)) (sampleTick 1700000000400)
     = (setInput "   " (state sampleKeyedWorld), None).
Proof.
  split; [reflexivity|]. split.
  - apply (submit_in_flight_or_blank_is_noop
             (setInput "again" sampleInFlightState) (sampleTick 1700000000400)).
    left. reflexivity.
  - apply (submit_in_flight_or_blank_is_noop
             (setInput "   " (state sampleKeyedWorld)) (sampleTick 1700000000400)).
    right. reflexivity.
Defined.

(** ** The request *)

(** C4: an accepted submission on the chat-completion provider sends, to
    the provider's endpoint, the whole transcript so far as role and content
    pairs, then the new user message last, with [max_tokens] 1000 and
    [temperature] 0.7; the secret is in the [Authorization] header after
    ["Bearer "]. *)
Theorem openai_request_carries_history
  (st st1 : State) (t : Tick) (p : Pending) :
  provider st = openai ->
  handleSubmit st t = (st1, Some p) ->
  url (request p) = "https://api.openai.com/v1/chat/completions"
  /\ method (request p) = "POST"
  /\ headers (request p)
     = [("Content-Type", "application/json");
        ("Authorization", "Bearer " ++ apiKey st)]
  /\ body (request p)
     = Js.Obj
         [("model", Js.Str "gpt-3.5-turbo");
          ("messages",
           Js.Arr
             (map (fun m => Js.Obj [("role", Js.Str (roleName (role m)));
                                    ("content", content m)])
                  (messages st)
              ++ [Js.Obj [("role", Js.Str "user");
                          ("content", Js.Str (trim (input st)))]])%list);
          ("max_tokens", Js.Num (1000 # 1));
          ("temperature", Js.Num (7 # 10))].
Proof.
  intros Hp H.
  apply handleSubmit_dispatch_inv in H. destruct H as [_ H].
  unfold accepted in H. injection H as _ ->.
  unfold fetchRequest. rewrite Hp. simpl. repeat split.
Qed.

Lemma openai_request_carries_history_witness :
  body (request
          {| request := fetchRequest (setInput "Hello" (state sampleKeyedWorld)) "Hello";
             closureProvider := openai |})
  = Js.Obj
      [("model", Js.Str "gpt-3.5-turbo");
       ("messages",
        Js.Arr [Js.Obj [("role", Js.Str "user"); ("content", Js.Str "Hello")]]);
       ("max_tokens", Js.Num (1000 # 1));
       ("temperature", Js.Num (7 # 10))].
Proof.
  apply (openai_request_carries_history
           (setInput "Hello" (state sampleKeyedWorld))
           sampleInFlightState (sampleTick 1700000000000)
           {| request := fetchRequest (setInput "Hello" (state sampleKeyedWorld)) "Hello";
              closureProvider := openai |}
           eq_refl eq_refl).
Defined.

(** C5: an accepted submission on the generate-content provider sends the
    new user text alone, as the one part of the one content; the request is
    the same whatever the transcript holds; the secret is in the URL, after
    [?key=], and in no header. *)
Theorem gemini_request_carries_text_only
  (st st1 : State) (t : Tick) (p : Pending) :
  provider st = gemini ->
  handleSubmit st t = (st1, Some p) ->
  url (request p)
  = "https://generativelanguage.googleapis.com/v1beta/models/gemini-1.5-flash-latest:generateContent"
    ++ "?key=" ++ apiKey st
  /\ method (request p) = "POST"
  /\ headers (request p) = [("Content-Type", "application/json")]
  /\ body (request p)
     = Js.Obj
         [("contents",
           Js.Arr [Js.Obj [("parts",
             Js.Arr [Js.Obj [("text", Js.Str (trim (input st)))]])]]);
          ("generationConfig",
           Js.Obj [("temperature", Js.Num (7 # 10));
                   ("maxOutputTokens", Js.Num (1000 # 1))])]
  /\ (forall history : list Message,
        snd (handleSubmit (setMessages (fun _ => history) st) t) = Some p).
Proof.
  intros Hp H.
  apply handleSubmit_dispatch_inv in H.
  destruct H as [(Hi & Hl & Hk) H].
  unfold accepted in H. injection H as _ ->.
  unfold fetchRequest. rewrite Hp. simpl. repeat split.
  intros history.
  rewrite handleSubmit_accepted by assumption.
  unfold accepted, fetchRequest. simpl. now rewrite Hp.
Qed.

Lemma gemini_request_carries_text_only_witness :
  body (request
          {| request := fetchRequest sampleGeminiState "Hello";
             closureProvider := gemini |})
  = Js.Obj
      [("contents",
        Js.Arr [Js.Obj [("parts", Js.Arr [Js.Obj [("text", Js.Str "Hello")]])]]);
       ("generationConfig",
        Js.Obj [("temperature", Js.Num (7 # 10));
                ("maxOutputTokens", Js.Num (1000 # 1))])].
Proof.
  apply (gemini_request_carries_text_only
           sampleGeminiState
           (fst (handleSubmit sampleGeminiState (sampleTick 1700000000000)))
           (sampleTick 1700000000000)
           {| request := fetchRequest sampleGeminiState "Hello";
              closureProvider := gemini |}
           eq_refl eq_refl).
Defined.

(** ** Failures *)

(** ** The in-flight flag *)

(** C9: however the request settles, with a success status, with an error
    status or with a rejection of [fetch], and whatever the body then
    holds, the continuation completes normally and leaves the in-flight
    flag false. *)
Theorem in_flight_flag_cleared
  (E : Js.Engine) (p : AIProvider) (out : FetchOutcome) (t : Tick) (w : World) :
  isLoading (state (fst (handleSubmit_resume E p out t w))) = false
  /\ snd (handleSubmit_resume E p out t w) = Js.Normal tt.
Proof.
  rewrite handleSubmit_resume_eq. split; reflexivity.
Qed.

(** ** The reply of a success response *)

(** Where the list of choices or of candidates is there, a missing first
    element gives the fallback text. *)
Lemma replyText_empty_list (E : Js.Engine) :
  replyText E openai (Js.Obj [("choices", Js.Arr [])])
  = Js.Normal (Js.Str fallbackText)
  /\ replyText E gemini (Js.Obj [("candidates", Js.Arr [])])
     = Js.Normal (Js.Str fallbackText).
Proof. split; reflexivity. Qed.

Lemma error_entry_is_not_fallback (m : string) :
  Js.Str ("Error: " ++ m) <> Js.Str fallbackText.
Proof. simpl. discriminate. Qed.

(** C8 fails on the code: for a success response whose body has no list
    of choices (an empty object) or no list of candidates (a blocked
    prompt), reading the first element throws, and the assistant entry is
    the engine's read error after ["Error: "], not the fallback text; for
    a success response whose body is not JSON it is the parser's error. *)
Theorem success_without_reply_list_gives_error_entry (E : Js.Engine) :
  ok {| status := 200; json := BodyJson (Js.Obj []) |} = true
  /\ replyContent E openai
       (Resolved {| status := 200; json := BodyJson (Js.Obj []) |})
     = Js.Str ("Error: " ++ Js.readErrorMessage E Js.Undefined "0")
  /\ replyContent E gemini
       (Resolved {| status := 200; json := BodyJson sampleBlockedBody |})
     = Js.Str ("Error: " ++ Js.readErrorMessage E Js.Undefined "0")
  /\ (forall p e,
        replyContent E p (Resolved {| status := 200; json := BodyReject e |})
        = Js.Str ("Error: " ++ Js.message e))
  /\ replyContent E openai
       (Resolved {| status := 200; json := BodyJson (Js.Obj []) |})
     <> Js.Str fallbackText
  /\ replyContent E gemini
       (Resolved {| status := 200; json := BodyJson sampleBlockedBody |})
     <> Js.Str fallbackText.
Proof.
  repeat split; try (intros; reflexivity); apply error_entry_is_not_fallback.
Qed.

(** ** Identifiers *)

Lemma to_int_not_nil (z : Z) :
  Z.to_int z <> Decimal.Pos Decimal.Nil /\ Z.to_int z <> Decimal.Neg Decimal.Nil.
Proof.
  destruct z; simpl; split; try discriminate; intros H; injection H as H;
    now apply Unsigned.to_uint_nonnil in H.
Qed.

Lemma intToString_inj (a b : Z) : intToString a = intToString b -> a = b.
Proof.
  unfold intToString. intros H.
  apply (f_equal NilZero.int_of_string) in H.
  destruct (to_int_not_nil a) as [Ha1 Ha2].
  destruct (to_int_not_nil b) as [Hb1 Hb2].
  rewrite !NilZero.isi in H by assumption.
  injection H as H. now apply to_int_inj.
Qed.

(** Two entries have the same identifier exactly when [Date.now()] read
    the same millisecond at both. *)
Lemma addMessage_ids_equal_iff
  (c1 c2 : Js.value) (r1 r2 : Role) (t1 t2 : Tick) (st : State) :
  map id (messages (addMessage c2 r2 t2 (addMessage c1 r1 t1 st)))
  = (map id (messages st) ++ [intToString (dateNow t1); intToString (dateNow t2)])%list
  /\ (intToString (dateNow t1) = intToString (dateNow t2)
      <-> dateNow t1 = dateNow t2).
Proof.
  split.
  - simpl. now rewrite !map_app, <- app_assoc.
  - split; [apply intToString_inj | now intros ->].
Qed.

(** C10 fails on the code: a submission whose request is refused within
    the millisecond of its sending leaves two entries, the user's and the
    assistant's, at two places of the transcript under one identifier. *)
Theorem entries_of_one_millisecond_share_id (E : Js.Engine) :
  let w' := playSubmission E sampleKeyedWorld sampleInstantFailure in
  map id (messages (state w')) = ["1700000000000"; "1700000000000"]
  /\ map role (messages (state w')) = [user; assistant]
  /\ map content (messages (state w'))
     = [Js.Str "Hello"; Js.Str "Error: Failed to fetch"]
  /\ ~ NoDup (map id (messages (state w'))).
Proof.
  cbv zeta.
  assert (H : messages (state (playSubmission E sampleKeyedWorld sampleInstantFailure))
              = exchange E openai sampleInstantFailure).
  { apply (playSubmission_accepted E sampleKeyedWorld sampleInstantFailure);
      [reflexivity | discriminate | discriminate]. }
  rewrite H. simpl. repeat split.
  intros Hnd. inversion Hnd as [| x l Hin _]. apply Hin. now left.
Qed.

(** * The rest of the component *)

(** ** The credential store *)

Lemma getItem_setItem_same (k v : string) (ls : Storage) :
  getItem k (setItem k v ls) = Some v.
Proof.
  induction ls as [| [k' v'] rest IH]; simpl.
  - now rewrite String.eqb_refl.
  - destruct (String.eqb k k') eqn:Hk; simpl; rewrite ?String.eqb_refl, ?Hk;
      [reflexivity | exact IH].
Qed.

Lemma getItem_setItem_other (k k' v : string) (ls : Storage) :
  k <> k' -> getItem k' (setItem k v ls) = getItem k' ls.
Proof.
  intros Hne. induction ls as [| [k0 v0] rest IH]; simpl.
  - apply String.eqb_neq in Hne. rewrite String.eqb_sym in Hne. now rewrite Hne.
  - destruct (String.eqb k k0) eqn:Hk; simpl.
    + apply String.eqb_eq in Hk. subst k0.
      assert (H : String.eqb k' k = false)
        by (apply String.eqb_neq; congruence).
      now rewrite H.
    + destruct (String.eqb k' k0); [reflexivity | exact IH].
Qed.

Lemma trim_nonempty_nonempty (s : string) : trim s <> "" -> s <> "".
Proof. intros H Hs. subst s. now apply H. Qed.

Lemma apiKeyItem_provider_neq (p q : AIProvider) :
  p <> q -> apiKeyItem (providerName p) <> apiKeyItem (providerName q).
Proof. destruct p, q; simpl; intros H; congruence || discriminate. Qed.

Lemma apiKeyItem_not_provider_item (p : AIProvider) :
  apiKeyItem (providerName p) <> "ai-provider".
Proof. destruct p; discriminate. Qed.

Lemma ownProvider_providerName (p : AIProvider) :
  ownProvider (providerName p) = Some p.
Proof. destruct p; reflexivity. Qed.

Lemma ownProvider_Some (s : string) (p : AIProvider) :
  ownProvider s = Some p -> s = providerName p.
Proof.
  unfold ownProvider.
  destruct (String.eqb s "openai") eqn:H1.
  - intros H. injection H as <-. now apply String.eqb_eq.
  - destruct (String.eqb s "gemini") eqn:H2; [| discriminate].
    intros H. injection H as <-. now apply String.eqb_eq.
Qed.

(** What saving a secret that is not blank leaves. *)
Lemma handleApiKeySubmit_saved (st : State) (ls : Storage) :
  trim (tempApiKey st) <> "" ->
  handleApiKeySubmit st ls
  = (setTempApiKey "" (setShowApiKeySetup false (setApiKey (tempApiKey st) st)),
     setItem "ai-provider" (providerName (provider st))
       (setItem (apiKeyItem (providerName (provider st))) (tempApiKey st) ls)).
Proof.
  intros H. unfold handleApiKeySubmit.
  apply isEmpty_false in H. now rewrite H.
Qed.

(** X1: saving a secret that is not blank stores it, as typed, under the
    active provider's key and records the provider; the secret stored for
    the other provider stays; the secret becomes the active one and the
    chat is shown.  A blank secret changes nothing. *)
Theorem save_stores_secret_for_active_provider (st : State) (ls : Storage) :
  (trim (tempApiKey st) <> "" ->
   let st' := fst (handleApiKeySubmit st ls) in
   let ls' := snd (handleApiKeySubmit st ls) in
   getItem (apiKeyItem (providerName (provider st))) ls' = Some (tempApiKey st)
   /\ getItem "ai-provider" ls' = Some (providerName (provider st))
   /\ (forall q, q <> provider st ->
         getItem (apiKeyItem (providerName q)) ls'
         = getItem (apiKeyItem (providerName q)) ls)
   /\ apiKey st' = tempApiKey st
   /\ provider st' = provider st
   /\ view st' = ChatView
   /\ tempApiKey st' = "")
  /\ (trim (tempApiKey st) = "" -> handleApiKeySubmit st ls = (st, ls)).
Proof.
  split.
  - intros H. rewrite (handleApiKeySubmit_saved st ls H). cbv zeta. simpl.
    repeat split.
    + rewrite getItem_setItem_other
        by (intros Heq; symmetry in Heq;
            now apply apiKeyItem_not_provider_item in Heq).
      apply getItem_setItem_same.
    + apply getItem_setItem_same.
    + intros q Hq.
      rewrite getItem_setItem_other
        by (intros Heq; symmetry in Heq;
            now apply apiKeyItem_not_provider_item in Heq).
      apply getItem_setItem_other.
      apply apiKeyItem_provider_neq. congruence.
  - intros H. unfold handleApiKeySubmit.
    apply isEmpty_true in H. now rewrite H.
Qed.

Lemma save_stores_secret_for_active_provider_witness :
  getItem "gemini-api-key" (snd (handleApiKeySubmit sampleSetupState sampleStorage))
  = Some "AIza-test"
  /\ getItem "openai-api-key" (snd (handleApiKeySubmit sampleSetupState sampleStorage))
     = Some "sk-test".
Proof.
  destruct (save_stores_secret_for_active_provider sampleSetupState sampleStorage)
    as [H _].
  assert (Hn : trim (tempApiKey sampleSetupState) <> "") by discriminate.
  destruct (H Hn) as (H1 & _ & H3 & _).
  split; [exact H1|].
  transitivity (getItem (apiKeyItem (providerName openai)) sampleStorage);
    [apply (H3 openai); discriminate | reflexivity].
Defined.

(** X2: a secret saved is found again by the next mount: on the storage
    that saving leaves, the effect restores the provider and the secret
    and shows the chat. *)
Theorem saved_secret_survives_restart (st : State) (ls : Storage) :
  trim (tempApiKey st) <> "" ->
  mountEffect (snd (handleApiKeySubmit st ls)) initialState
  = Some (setApiKey (tempApiKey st) (setProvider (provider st) initialState)).
Proof.
  intros H. rewrite (handleApiKeySubmit_saved st ls H). simpl snd.
  unfold mountEffect. rewrite getItem_setItem_same.
  assert (Hn : isEmpty (providerName (provider st)) = false)
    by (destruct (provider st); reflexivity).
  rewrite Hn, ownProvider_providerName. unfold orOpenai. rewrite Hn.
  rewrite getItem_setItem_other
    by (intros Heq; symmetry in Heq;
        now apply apiKeyItem_not_provider_item in Heq).
  rewrite getItem_setItem_same.
  apply trim_nonempty_nonempty, isEmpty_false in H. now rewrite H.
Qed.

Lemma saved_secret_survives_restart_witness :
  mountEffect (snd (handleApiKeySubmit sampleSetupState sampleStorage)) initialState
  = Some {| messages := []; input := ""; isLoading := false;
            apiKey := "AIza-test"; tempApiKey := "";
            showApiKeySetup := false; provider := gemini |}.
Proof.
  apply (saved_secret_survives_restart sampleSetupState sampleStorage).
  discriminate.
Defined.

(** X3: on a storage that records no provider, the effect keeps the
    chat-completion provider and looks for its secret: without one it
    shows the credential setup and holds no secret; with one it holds it
    and shows the chat. *)
Theorem mount_without_recorded_provider (ls : Storage) :
  getItem "ai-provider" ls = None ->
  (getItem "openai-api-key" ls = None ->
   mountEffect ls initialState = Some (setShowApiKeySetup true initialState))
  /\ (forall k, getItem "openai-api-key" ls = Some k -> k <> "" ->
        mountEffect ls initialState = Some (setApiKey k initialState))
  /\ (getItem "openai-api-key" ls = Some "" ->
      mountEffect ls initialState = Some (setShowApiKeySetup true initialState)).
Proof.
  intros Hp. unfold mountEffect. rewrite Hp. simpl orOpenai.
  change (apiKeyItem "openai") with "openai-api-key".
  repeat split.
  - intros ->. reflexivity.
  - intros k -> Hk. apply isEmpty_false in Hk. now rewrite Hk.
  - intros ->. reflexivity.
Qed.

Lemma mount_without_recorded_provider_witness :
  mountEffect [] initialState = Some (setShowApiKeySetup true initialState)
  /\ mountEffect [("openai-api-key", "sk-test")] initialState
     = Some (setApiKey "sk-test" initialState).
Proof.
  split.
  - exact (proj1 (mount_without_recorded_provider [] eq_refl) eq_refl).
  - apply (proj1 (proj2 (mount_without_recorded_provider
                           [("openai-api-key", "sk-test")] eq_refl))).
    + reflexivity.
    + discriminate.
Defined.

(** X4: where the storage records a provider that is none of the two
    (and no inherited name), the effect keeps the chat-completion provider
    but takes the secret from the item of the recorded name: the session
    then holds, for the chat-completion provider, a secret that was not
    stored for it. *)
Theorem mount_with_unknown_provider_reads_its_item
  (ls : Storage) (s k : string) :
  getItem "ai-provider" ls = Some s ->
  s <> "" -> ownProvider s = None -> isInherited s = false ->
  getItem (s ++ "-api-key") ls = Some k -> k <> "" ->
  mountEffect ls initialState = Some (setApiKey k initialState)
  /\ provider (setApiKey k initialState) = openai.
Proof.
  intros Hs Hne Hown Hinh Hk Hkne. unfold mountEffect.
  rewrite Hs. apply isEmpty_false in Hne. rewrite Hne, Hown, Hinh.
  unfold orOpenai. rewrite Hne. unfold apiKeyItem. rewrite Hk.
  apply isEmpty_false in Hkne. rewrite Hkne. split; reflexivity.
Qed.

Lemma mount_with_unknown_provider_reads_its_item_witness :
  mountEffect sampleStaleStorage initialState
  = Some (setApiKey "sk-ant-test" initialState)
  /\ provider (setApiKey "sk-ant-test" initialState) = openai.
Proof.
  apply (mount_with_unknown_provider_reads_its_item
           sampleStaleStorage "claude" "sk-ant-test" eq_refl).
  - discriminate.
  - reflexivity.
  - reflexivity.
  - reflexivity.
  - discriminate.
Defined.

(** ** Trimmed texts *)

Lemma trimEnd_idempotent (s : string) : trimEnd (trimEnd s) = trimEnd s.
Proof.
  induction s as [| c r IH]; [reflexivity|].
  simpl. destruct (trimEnd r) as [| a b] eqn:Hr.
  - destruct (isWhiteSpace c) eqn:Hc; [reflexivity|]. simpl. now rewrite Hc.
  - change (trimEnd (String c (String a b))) with
      (match trimEnd (String a b) with
       | EmptyString => if isWhiteSpace c then EmptyString else String c EmptyString
       | r' => String c r'
       end).
    now rewrite IH.
Qed.

Lemma trimEnd_keeps_head (c : ascii) (r : string) :
  isWhiteSpace c = false -> exists r', trimEnd (String c r) = String c r'.
Proof.
  intros Hc. simpl. destruct (trimEnd r); [rewrite Hc|]; eauto.
Qed.

Lemma trim_idempotent (s : string) : trim (trim s) = trim s.
Proof.
  unfold trim at 2 3.
  destruct (trimStart_cases s) as [[Hs _] | (c & r & Hs & Hc & _)]; rewrite Hs.
  - reflexivity.
  - destruct (trimEnd_keeps_head c r Hc) as [r' Hr].
    unfold trim. rewrite Hr at 1. simpl trimStart. rewrite Hc.
    rewrite <- Hr. apply trimEnd_idempotent.
Qed.

Lemma trim_isTrimmed (s : string) : trim s <> "" -> isTrimmed (trim s).
Proof. intros H. split; [exact H | apply trim_idempotent]. Qed.

(** ** What an assistant entry holds *)

Lemma or_else_truthy (a b : Js.value) :
  Js.truthy b = true -> Js.truthy (Js.or_else a b) = true.
Proof. intros Hb. unfold Js.or_else. now destruct (Js.truthy a) eqn:Ha. Qed.

Lemma replyText_truthy (E : Js.Engine) (p : AIProvider) (data a : Js.value) :
  replyText E p data = Js.Normal a -> Js.truthy a = true.
Proof.
  unfold replyText. destruct p.
  - destruct (Js.get E data "choices") as [ch |]; simpl; [| discriminate].
    destruct (Js.first E ch) as [c0 |]; simpl; [| discriminate].
    destruct (Js.getOpt E c0 "message") as [m |]; simpl; [| discriminate].
    destruct (Js.getOpt E m "content") as [c |]; simpl; [| discriminate].
    intros H. injection H as <-. now apply or_else_truthy.
  - destruct (Js.get E data "candidates") as [ch |]; simpl; [| discriminate].
    destruct (Js.first E ch) as [c0 |]; simpl; [| discriminate].
    destruct (Js.getOpt E c0 "content") as [c |]; simpl; [| discriminate].
    destruct (if Js.isNullish c then Js.Normal Js.Undefined
              else Js.bind (Js.get E c "parts") (fun parts => Js.first E parts))
      as [part |]; simpl; [| discriminate].
    destruct (Js.getOpt E part "text") as [txt |]; simpl; [| discriminate].
    intros H. injection H as <-. now apply or_else_truthy.
Qed.

Lemma replyContent_truthy (E : Js.Engine) (p : AIProvider) (out : FetchOutcome) :
  Js.truthy (replyContent E p out) = true.
Proof.
  unfold replyContent.
  destruct (assistantMessage E p out) as [a | e] eqn:Ha; [| reflexivity].
  unfold assistantMessage in Ha.
  destruct (awaitFetch out) as [r |]; simpl in Ha; [| discriminate].
  destruct (checkOk E p r); simpl in Ha; [| discriminate].
  destruct (awaitJson r) as [data |]; simpl in Ha; [| discriminate].
  now apply replyText_truthy in Ha.
Qed.

Lemma handleSubmit_none (st st1 : State) (t : Tick) :
  handleSubmit st t = (st1, None) -> st1 = st.
Proof.
  unfold handleSubmit.
  destruct (isEmpty (trim (input st)) || isLoading st || isEmpty (apiKey st));
    intros H; [now injection H | discriminate].
Qed.

(** ** What every session keeps *)

Lemma exchangeRoles_snoc (n : nat) :
  (exchangeRoles n ++ [user; assistant])%list = exchangeRoles (S n).
Proof.
  induction n as [| n IH]; [reflexivity|].
  simpl. simpl in IH. now rewrite IH.
Qed.

Lemma mountEffect_shape (ls : Storage) (st st' : State) :
  mountEffect ls st = Some st' ->
  messages st' = messages st /\ isLoading st' = isLoading st
  /\ input st' = input st
  /\ ((showApiKeySetup st' = true /\ apiKey st' = apiKey st)
      \/ (apiKey st' <> "" /\ showApiKeySetup st' = showApiKeySetup st)).
Proof.
  unfold mountEffect.
  set (restored := match getItem "ai-provider" ls with
                   | Some s => _ | None => _ end).
  assert (Hr : forall st1, restored = Some st1 ->
                 messages st1 = messages st /\ isLoading st1 = isLoading st
                 /\ input st1 = input st /\ apiKey st1 = apiKey st
                 /\ showApiKeySetup st1 = showApiKeySetup st).
  { subst restored. intros st1.
    destruct (getItem "ai-provider" ls) as [s |].
    - destruct (isEmpty s); [intros H; injection H as <-; repeat split|].
      destruct (ownProvider s);
        [intros H; injection H as <-; repeat split|].
      destruct (isInherited s); [discriminate|].
      intros H; injection H as <-; repeat split.
    - intros H; injection H as <-; repeat split. }
  destruct restored as [st1 |]; [| discriminate].
  destruct (Hr st1 eq_refl) as (Hm & Hl & Hi & Hk & Hv).
  destruct (getItem _ ls) as [k |].
  - destruct (isEmpty k) eqn:Hke; intros H; injection H as <-; simpl;
      repeat split; try assumption.
    + left. now split.
    + right. split; [now apply isEmpty_false | assumption].
  - intros H; injection H as <-; simpl; repeat split; try assumption.
    left. now split.
Qed.

Lemma startSession_inv (ls : Storage) (s : Session) :
  startSession ls = Some s -> sessionInv s.
Proof.
  unfold startSession.
  destruct (mountEffect ls initialState) as [st |] eqn:Hm; [| discriminate].
  intros H. injection H as <-.
  destruct (mountEffect_shape _ _ _ Hm) as (Hms & Hl & Hi & Hk).
  simpl in Hms, Hl, Hi.
  unfold sessionInv, singleFlight, exchangesInOrder, entriesFilled. simpl.
  rewrite Hms, Hl, Hi. repeat split.
  - now left.
  - intros Hv. destruct Hk as [[Hk _] | [Hk _]]; congruence.
  - exists 0%nat. now split.
  - constructor.
Qed.

Lemma step_inv (E : Js.Engine) (s s' : Session) (e : Event) :
  sessionInv s -> step E s e = Some s' -> sessionInv s'.
Proof.
  intros (Hsf & Hkey & Hdraft & Hex & Hfill) Hstep.
  destruct s as [[st con] ls fl sn].
  unfold sessionInv, singleFlight, exchangesInOrder, entriesFilled in *.
  simpl in *.
  destruct e; simpl in Hstep.
  - (* TypeDraft *)
    unfold draftDisabled in Hstep.
    destruct (showApiKeySetup st) eqn:Hv; [discriminate|].
    destruct (isLoading st) eqn:Hl; [discriminate|].
    injection Hstep as <-. simpl. rewrite Hv, Hl.
    repeat split; try assumption; try discriminate.
  - (* Submit *)
    destruct (showApiKeySetup st) eqn:Hv; [discriminate|].
    destruct (handleSubmit st t) as [st1 [p |]] eqn:Hs.
    + apply handleSubmit_dispatch_inv in Hs.
      destruct Hs as [(Hi & Hl & Hk) Hs].
      unfold accepted in Hs. injection Hs as -> ->.
      injection Hstep as <-. simpl.
      destruct Hsf as [[_ ->] | [Hl' _]]; [| congruence].
      rewrite Hl in Hex. destruct Hex as (n & Hr & Hn).
      rewrite app_nil_r in Hr.
      repeat split.
      * right. split; [reflexivity | now exists
          {| request := fetchRequest st (trim (input st));
             closureProvider := provider st |}].
      * intros _. exact Hk.
      * exists n. split.
        -- now rewrite map_app, Hr.
        -- rewrite length_app. simpl. lia.
      * apply Forall_app. split; [exact Hfill|].
        constructor; [| constructor]. simpl. split.
        -- apply isEmpty_false in Hi. now rewrite Hi.
        -- intros _. exists (trim (input st)).
           split; [reflexivity | now apply trim_isTrimmed].
    + apply handleSubmit_none in Hs. subst st1.
      injection Hstep as <-. simpl. rewrite Hv. repeat split; assumption.
  - (* OpenSettings *)
    destruct (showApiKeySetup st) eqn:Hv; [discriminate|].
    injection Hstep as <-. simpl.
    repeat split; try assumption; try discriminate.
  - (* TypeKey *)
    destruct (showApiKeySetup st) eqn:Hv; [| discriminate].
    injection Hstep as <-. simpl. rewrite Hv.
    repeat split; try assumption; try discriminate.
  - (* SelectProvider *)
    destruct (showApiKeySetup st) eqn:Hv; [| discriminate].
    injection Hstep as <-. unfold handleProviderChange.
    destruct (getItem (apiKeyItem (providerName p)) ls) as [k |];
      [destruct (isEmpty k) |]; simpl; rewrite Hv;
      repeat split; try assumption; try discriminate.
  - (* SaveKey *)
    destruct (showApiKeySetup st) eqn:Hv; [| discriminate].
    unfold handleApiKeySubmit in Hstep.
    destruct (isEmpty (trim (tempApiKey st))) eqn:Hk;
      injection Hstep as <-; simpl.
    + rewrite Hv. repeat split; try assumption; try discriminate.
    + repeat split; try assumption.
      intros _. apply trim_nonempty_nonempty. now apply isEmpty_false.
  - (* Settle *)
    destruct fl as [| p rest]; [discriminate|].
    injection Hstep as <-. rewrite handleSubmit_resume_eq. simpl.
    destruct Hsf as [[_ Hfl] | [Hl (p0 & Hfl)]]; [discriminate|].
    injection Hfl as _ ->.
    rewrite Hl in Hex. destruct Hex as (n & Hr & Hn).
    repeat split.
    + now left.
    + exact Hkey.
    + discriminate.
    + exists (S n). split.
      * rewrite map_app, Hr, <- app_assoc, app_nil_r. simpl.
        apply exchangeRoles_snoc.
      * lia.
    + apply Forall_app. split; [exact Hfill|].
      constructor; [| constructor]. simpl. split.
      * apply replyContent_truthy.
      * discriminate.
Qed.

Lemma reachable_inv (E : Js.Engine) (ls : Storage) (s : Session) :
  reachable E ls s -> sessionInv s.
Proof.
  induction 1 as [s Hs | s s' e _ IH Hstep].
  - now apply startSession_inv in Hs.
  - exact (step_inv E s s' e IH Hstep).
Qed.

Lemma withState_same (s : Session) : withState (state (world s)) s = s.
Proof. destruct s as [[st con] ls fl sn]. reflexivity. Qed.

Lemma sampleSession_reachable (E : Js.Engine) :
  reachable E sampleStorage sampleSession.
Proof.
  apply (reachable_step E sampleStorage
           {| world := {| state := setApiKey "sk-test" initialState; console := [] |};
              storage := sampleStorage; inFlight := []; sent := [] |}
           sampleSession (TypeDraft "Hello")).
  - now apply reachable_start.
  - reflexivity.
Qed.

Lemma sampleBusySession_reachable (E : Js.Engine) :
  reachable E sampleStorage sampleBusySession.
Proof.
  apply (reachable_step E sampleStorage sampleSession sampleBusySession
           (Submit (sampleTick 1700000000000))).
  - apply sampleSession_reachable.
  - reflexivity.
Qed.

(** X5: in every session the component can reach, at most one request is
    in flight, and one is exactly while the in-flight flag is set; the
    draft is empty then, and a submission then leaves the session as it
    is: nothing more is sent. *)
Theorem single_request_in_flight
  (E : Js.Engine) (ls : Storage) (s : Session) :
  reachable E ls s ->
  (List.length (inFlight s) <= 1)%nat
  /\ (isLoading (state (world s)) = true <-> inFlight s <> [])
  /\ (isLoading (state (world s)) = true ->
      input (state (world s)) = ""
      /\ forall t s', step E s (Submit t) = Some s' -> s' = s).
Proof.
  intros Hr. destruct (reachable_inv E ls s Hr) as (Hsf & _ & Hdraft & _).
  unfold singleFlight in Hsf. repeat split.
  - destruct Hsf as [[_ ->] | [_ [p ->]]]; simpl; lia.
  - intros Hl. destruct Hsf as [[Hl' _] | [_ [p ->]]]; congruence.
  - intros Hn. destruct Hsf as [[_ Hfl] | [Hl _]]; congruence.
  - now apply Hdraft.
  - intros t s' Hstep. simpl in Hstep.
    destruct (showApiKeySetup (state (world s))); [discriminate|].
    rewrite (handleSubmit_ignored (state (world s)) t) in Hstep
      by (right; left; assumption).
    injection Hstep as <-. apply withState_same.
Qed.

Lemma single_request_in_flight_witness :
  (List.length (inFlight sampleBusySession) <= 1)%nat
  /\ (isLoading (state (world sampleBusySession)) = true
      <-> inFlight sampleBusySession <> [])
  /\ (isLoading (state (world sampleBusySession)) = true ->
      input (state (world sampleBusySession)) = ""
      /\ forall t s', step sampleEngine sampleBusySession (Submit t) = Some s' ->
                      s' = sampleBusySession).
Proof.
  apply (single_request_in_flight sampleEngine sampleStorage sampleBusySession).
  apply sampleBusySession_reachable.
Defined.

Lemma startSession_defined (ls : Storage) :
  recordedProviderCovered ls -> exists s0, startSession ls = Some s0.
Proof.
  unfold recordedProviderCovered, startSession, mountEffect.
  destruct (getItem "ai-provider" ls) as [sp |].
  - intros Hc. destruct (isEmpty sp).
    + destruct (getItem _ ls) as [k |]; [destruct (isEmpty k) |]; eauto.
    + destruct (ownProvider sp); [| rewrite Hc];
        (destruct (getItem _ ls) as [k |]; [destruct (isEmpty k) |]; eauto).
  - intros _. destruct (getItem _ ls) as [k |]; [destruct (isEmpty k) |]; eauto.
Qed.

Lemma isInherited_not_own (s : string) :
  isInherited s = true -> isEmpty s = false /\ ownProvider s = None.
Proof.
  unfold isInherited, inheritedNames. simpl. intros H.
  repeat (apply orb_prop in H; destruct H as [H | H];
          [apply String.eqb_eq in H; subst s; split; reflexivity |]).
  discriminate.
Qed.

(** The sessions of the embedding are those of the storages covered. *)
Lemma startSession_undefined (ls : Storage) :
  ~ recordedProviderCovered ls -> startSession ls = None.
Proof.
  unfold recordedProviderCovered, startSession, mountEffect.
  destruct (getItem "ai-provider" ls) as [sp |]; [| intros H; now destruct H].
  intros Hc. destruct (isInherited sp) eqn:Hi; [| now destruct Hc].
  destruct (isInherited_not_own sp Hi) as [-> ->]. reflexivity.
Qed.

(** X6: on a storage whose recorded provider, if any, is not a name that
    every object inherits ([constructor], [toString], ...), the component
    mounts into a session, and in every session it can then reach the chat
    is on screen only with a secret held: there, the guard of a submission
    never rejects for a missing credential, and the send button is enabled
    exactly when a submission gives a request to [fetch]. *)
Theorem chat_view_holds_secret (E : Js.Engine) (ls : Storage) :
  recordedProviderCovered ls ->
  (exists s0, startSession ls = Some s0)
  /\ forall s,
       reachable E ls s ->
       view (state (world s)) = ChatView ->
       apiKey (state (world s)) <> ""
       /\ forall t,
            sendDisabled (state (world s)) = false
            <-> exists p, snd (handleSubmit (state (world s)) t) = Some p.
Proof.
  intros Hc. split; [now apply startSession_defined|].
  intros s Hr Hv. destruct (reachable_inv E ls s Hr) as (_ & Hkey & _).
  unfold view in Hv.
  destruct (showApiKeySetup (state (world s))) eqn:Hs; [discriminate|].
  specialize (Hkey eq_refl). split; [exact Hkey|].
  intros t. unfold sendDisabled. split.
  - intros Hd. apply orb_false_iff in Hd. destruct Hd as [Hi Hl].
    rewrite handleSubmit_accepted; try assumption; [| now apply isEmpty_false].
    unfold accepted. simpl. eauto.
  - intros [p Hp].
    destruct (handleSubmit (state (world s)) t) as [st1 o] eqn:Hh.
    simpl in Hp. subst o.
    apply handleSubmit_dispatch_inv in Hh. destruct Hh as [(Hi & Hl & _) _].
    apply isEmpty_false in Hi. now rewrite Hi, Hl.
Qed.

Lemma chat_view_holds_secret_witness :
  apiKey (state (world sampleSession)) <> ""
  /\ forall t,
       sendDisabled (state (world sampleSession)) = false
       <-> exists p, snd (handleSubmit (state (world sampleSession)) t) = Some p.
Proof.
  assert (Hc : recordedProviderCovered sampleStorage) by reflexivity.
  apply (proj2 (chat_view_holds_secret sampleEngine sampleStorage Hc)
           sampleSession).
  - apply sampleSession_reachable.
  - reflexivity.
Defined.

(** X7: on a storage whose recorded provider, if any, is not a name that
    every object inherits, the component mounts into a session, and in
    every session it can then reach the transcript is a run of complete
    exchanges, a user entry then an assistant entry, followed by one more
    user entry exactly while a request is in flight; and as many requests
    were given to [fetch] as there are user entries. *)
Theorem transcript_is_exchanges_in_order (E : Js.Engine) (ls : Storage) :
  recordedProviderCovered ls ->
  (exists s0, startSession ls = Some s0)
  /\ forall s,
       reachable E ls s ->
       exists n : nat,
         map role (messages (state (world s)))
         = (exchangeRoles n
            ++ (if isLoading (state (world s)) then [user] else []))%list
         /\ List.length (sent s)
            = (n + (if isLoading (state (world s)) then 1 else 0))%nat
         /\ List.length (sent s)
            = List.length
                (filter (fun m => match role m with user => true | _ => false end)
                        (messages (state (world s)))).
Proof.
  intros Hc. split; [now apply startSession_defined|].
  intros s Hr. destruct (reachable_inv E ls s Hr) as (_ & _ & _ & Hex & _).
  destruct Hex as (n & Hroles & Hsent). exists n.
  split; [exact Hroles|]. split; [exact Hsent|].
  rewrite Hsent.
  assert (Hf : forall (l : list Message),
             List.length (filter (fun m => match role m with user => true | _ => false end) l)
             = List.length (filter (fun r => match r with user => true | _ => false end)
                                   (map role l))).
  { induction l as [| m l IH]; [reflexivity|]. simpl.
    destruct (role m); simpl; now rewrite IH. }
  rewrite Hf, Hroles, filter_app, length_app.
  assert (Hn : List.length (filter (fun r => match r with user => true | _ => false end)
                                   (exchangeRoles n)) = n).
  { clear. induction n as [| n IH]; [reflexivity|]. simpl. now rewrite IH. }
  rewrite Hn. now destruct (isLoading (state (world s))).
Qed.

Lemma transcript_is_exchanges_in_order_witness :
  exists n : nat,
    map role (messages (state (world sampleBusySession)))
    = (exchangeRoles n
       ++ (if isLoading (state (world sampleBusySession)) then [user] else []))%list
    /\ List.length (sent sampleBusySession)
       = (n + (if isLoading (state (world sampleBusySession)) then 1 else 0))%nat
    /\ List.length (sent sampleBusySession)
       = List.length (filter (fun m => match role m with user => true | _ => false end)
                             (messages (state (world sampleBusySession)))).
Proof.
  assert (Hc : recordedProviderCovered sampleStorage) by reflexivity.
  apply (proj2 (transcript_is_exchanges_in_order sampleEngine sampleStorage Hc)
           sampleBusySession).
  apply sampleBusySession_reachable.
Defined.

(** X8: in every session the component can reach, no entry of the
    transcript is empty (its content is never [undefined], [null], [false],
    zero or the empty text), and the content of a user entry is a text
    without white space at either end. *)
Theorem transcript_entries_are_filled
  (E : Js.Engine) (ls : Storage) (s : Session) :
  reachable E ls s ->
  Forall (fun m =>
            Js.truthy (content m) = true
            /\ (role m = user ->
                exists txt, content m = Js.Str txt /\ txt <> "" /\ trim txt = txt))
         (messages (state (world s))).
Proof.
  intros Hr. destruct (reachable_inv E ls s Hr) as (_ & _ & _ & _ & Hfill).
  exact Hfill.
Qed.

Lemma transcript_entries_are_filled_witness :
  Forall (fun m =>
            Js.truthy (content m) = true
            /\ (role m = user ->
                exists txt, content m = Js.Str txt /\ txt <> "" /\ trim txt = txt))
         (messages (state (world sampleBusySession))).
Proof.
  apply (transcript_entries_are_filled sampleEngine sampleStorage
           sampleBusySession).
  apply sampleBusySession_reachable.
Defined.

(** ** The transcript through any events *)

Lemma step_messages_extend (E : Js.Engine) (s s' : Session) (e : Event) :
  step E s e = Some s' ->
  exists more,
    messages (state (world s')) = (messages (state (world s)) ++ more)%list.
Proof.
  intros Hstep. destruct s as [[st con] ls fl sn]. simpl in *.
  destruct e; simpl in Hstep.
  - destruct (showApiKeySetup st || draftDisabled st); [discriminate|].
    injection Hstep as <-. exists []. simpl. now rewrite app_nil_r.
  - destruct (showApiKeySetup st); [discriminate|].
    destruct (handleSubmit st t) as [st1 [p |]] eqn:Hs.
    + apply handleSubmit_dispatch_inv in Hs. destruct Hs as [_ Hs].
      unfold accepted in Hs. injection Hs as -> _.
      injection Hstep as <-. simpl. eauto.
    + apply handleSubmit_none in Hs. subst st1.
      injection Hstep as <-. exists []. simpl. now rewrite app_nil_r.
  - destruct (showApiKeySetup st); [discriminate|].
    injection Hstep as <-. exists []. simpl. now rewrite app_nil_r.
  - destruct (showApiKeySetup st); [| discriminate].
    injection Hstep as <-. exists []. simpl. now rewrite app_nil_r.
  - destruct (showApiKeySetup st); [| discriminate].
    injection Hstep as <-. exists []. unfold handleProviderChange.
    destruct (getItem (apiKeyItem (providerName p)) ls) as [k |];
      [destruct (isEmpty k) |]; simpl; now rewrite app_nil_r.
  - destruct (showApiKeySetup st); [| discriminate].
    unfold handleApiKeySubmit in Hstep.
    destruct (isEmpty (trim (tempApiKey st)));
      injection Hstep as <-; exists []; simpl; now rewrite app_nil_r.
  - destruct fl as [| p rest]; [discriminate|].
    injection Hstep as <-. rewrite handleSubmit_resume_eq. simpl. eauto.
Qed.

(** X9: whatever events follow one another, from any session, the
    transcript only grows at its end: the entries there stay, unchanged
    and in their order, as the first entries of the later transcript. *)
Theorem transcript_is_append_only
  (E : Js.Engine) (es : list Event) (s : Session) :
  exists more,
    messages (state (world (runEvents E s es)))
    = (messages (state (world s)) ++ more)%list.
Proof.
  revert s. induction es as [| e es IH]; intros s.
  - exists []. simpl. now rewrite app_nil_r.
  - change (runEvents E s (e :: es))
      with (runEvents E (match step E s e with Some s' => s' | None => s end) es).
    destruct (step E s e) as [s' |] eqn:Hstep.
    + destruct (step_messages_extend E s s' e Hstep) as [m1 H1].
      destruct (IH s') as [m2 H2]. exists (m1 ++ m2)%list.
      rewrite H2, H1. now rewrite app_assoc.
    + apply IH.
Qed.

(** ** The secret held and the secret stored *)

Lemma startSession_secret (ls : Storage) (s : Session) :
  storedProviderOk ls -> startSession ls = Some s -> secretOfProvider s.
Proof.
  unfold storedProviderOk, startSession, mountEffect, secretOfProvider.
  destruct (getItem "ai-provider" ls) as [sp |] eqn:Hsp.
  - intros Hok.
    destruct (ownProvider sp) as [p |] eqn:Hp; [| congruence].
    apply ownProvider_Some in Hp. subst sp.
    assert (Hn : isEmpty (providerName p) = false) by (destruct p; reflexivity).
    rewrite Hn. unfold orOpenai. rewrite Hn.
    destruct (getItem (apiKeyItem (providerName p)) ls) as [k |] eqn:Hk.
    + destruct (isEmpty k) eqn:Hke; intros H; injection H as <-; simpl.
      * now left.
      * now right.
    + intros H; injection H as <-; simpl. now left.
  - intros _. simpl orOpenai.
    destruct (getItem (apiKeyItem "openai") ls) as [k |] eqn:Hk.
    + destruct (isEmpty k) eqn:Hke; intros H; injection H as <-; simpl.
      * now left.
      * now right.
    + intros H; injection H as <-; simpl. now left.
Qed.

Lemma step_secret (E : Js.Engine) (s s' : Session) (e : Event) :
  secretOfProvider s -> step E s e = Some s' -> secretOfProvider s'.
Proof.
  unfold secretOfProvider. intros Hsec Hstep.
  destruct s as [[st con] ls fl sn]. simpl in *.
  destruct e; simpl in Hstep.
  - destruct (showApiKeySetup st || draftDisabled st); [discriminate|].
    now injection Hstep as <-.
  - destruct (showApiKeySetup st); [discriminate|].
    destruct (handleSubmit st t) as [st1 [p |]] eqn:Hs.
    + apply handleSubmit_dispatch_inv in Hs. destruct Hs as [_ Hs].
      unfold accepted in Hs. injection Hs as -> _.
      now injection Hstep as <-.
    + apply handleSubmit_none in Hs. subst st1. now injection Hstep as <-.
  - destruct (showApiKeySetup st); [discriminate|].
    now injection Hstep as <-.
  - destruct (showApiKeySetup st); [| discriminate].
    now injection Hstep as <-.
  - destruct (showApiKeySetup st); [| discriminate].
    injection Hstep as <-. unfold handleProviderChange. simpl.
    destruct (getItem (apiKeyItem (providerName p)) ls) as [k |] eqn:Hk;
      [destruct (isEmpty k) |]; simpl; auto.
  - destruct (showApiKeySetup st); [| discriminate].
    unfold handleApiKeySubmit in Hstep.
    destruct (isEmpty (trim (tempApiKey st)));
      injection Hstep as <-; simpl; [exact Hsec|].
    right.
    rewrite getItem_setItem_other
      by (intros Heq; symmetry in Heq;
          now apply apiKeyItem_not_provider_item in Heq).
    apply getItem_setItem_same.
  - destruct fl as [| p rest]; [discriminate|].
    injection Hstep as <-. rewrite handleSubmit_resume_eq. simpl. exact Hsec.
Qed.

Lemma reachable_secret (E : Js.Engine) (ls : Storage) (s : Session) :
  storedProviderOk ls -> reachable E ls s -> secretOfProvider s.
Proof.
  intros Hok. induction 1 as [s Hs | s s' e _ IH Hstep].
  - exact (startSession_secret ls s Hok Hs).
  - exact (step_secret E s s' e IH Hstep).
Qed.

(** X10: in a session started on a storage whose recorded provider, if
    any, is one of the two, every request given to [fetch] goes to the
    endpoint of the provider active at the submission and carries the
    secret stored for that provider at that time: in the [Authorization]
    header for the chat-completion provider, in the URL for the
    generate-content provider. *)
Theorem request_carries_secret_of_its_provider
  (E : Js.Engine) (ls : Storage) (s : Session) (t : Tick) (st1 : State)
  (p : Pending) :
  storedProviderOk ls ->
  reachable E ls s ->
  handleSubmit (state (world s)) t = (st1, Some p) ->
  closureProvider p = provider (state (world s))
  /\ exists k,
       getItem (apiKeyItem (providerName (closureProvider p))) (storage s) = Some k
       /\ k <> ""
       /\ match closureProvider p with
          | openai =>
              url (request p) = apiUrl (providers openai)
              /\ headers (request p)
                 = [("Content-Type", "application/json");
                    ("Authorization", "Bearer " ++ k)]
          | gemini =>
              url (request p) = apiUrl (providers gemini) ++ "?key=" ++ k
              /\ headers (request p) = [("Content-Type", "application/json")]
          end.
Proof.
  intros Hok Hr Hs.
  pose proof (reachable_secret E ls s Hok Hr) as Hsec.
  apply handleSubmit_dispatch_inv in Hs. destruct Hs as [(_ & _ & Hk) Hs].
  unfold accepted in Hs. injection Hs as _ ->. simpl closureProvider.
  split; [reflexivity|].
  destruct Hsec as [Hsec | Hsec]; [congruence|].
  exists (apiKey (state (world s))). split; [exact Hsec|]. split; [exact Hk|].
  simpl request. unfold fetchRequest.
  destruct (provider (state (world s))); simpl; split; reflexivity.
Qed.

Lemma request_carries_secret_of_its_provider_witness :
  closureProvider
    {| request := fetchRequest (state (world sampleSession)) "Hello";
       closureProvider := openai |}
  = provider (state (world sampleSession))
  /\ exists k,
       getItem (apiKeyItem (providerName openai)) (storage sampleSession) = Some k
       /\ k <> ""
       /\ url (fetchRequest (state (world sampleSession)) "Hello")
          = apiUrl (providers openai)
       /\ headers (fetchRequest (state (world sampleSession)) "Hello")
          = [("Content-Type", "application/json");
             ("Authorization", "Bearer " ++ k)].
Proof.
  apply (request_carries_secret_of_its_provider sampleEngine sampleStorage
           sampleSession (sampleTick 1700000000000) sampleInFlightState
           {| request := fetchRequest (state (world sampleSession)) "Hello";
              closureProvider := openai |}).
  - unfold storedProviderOk. simpl. discriminate.
  - apply sampleSession_reachable.
  - reflexivity.
Defined.

(** ** An exchange and the user's other doings *)

Lemma busy_step_frame (E : Js.Engine) (s s' : Session) (e : Event) (p : Pending) :
  isLoading (state (world s)) = true -> inFlight s = [p] ->
  match e with Settle _ _ => False | _ => True end ->
  step E s e = Some s' ->
  messages (state (world s')) = messages (state (world s))
  /\ isLoading (state (world s')) = true
  /\ inFlight s' = [p].
Proof.
  intros Hl Hfl He Hstep. destruct s as [[st con] ls fl sn]. simpl in *.
  destruct e; simpl in Hstep; try contradiction.
  - unfold draftDisabled in Hstep. rewrite Hl, orb_true_r in Hstep. discriminate.
  - destruct (showApiKeySetup st); [discriminate|].
    rewrite (handleSubmit_ignored st t) in Hstep by (right; left; assumption).
    injection Hstep as <-. simpl. now repeat split.
  - destruct (showApiKeySetup st); [discriminate|].
    injection Hstep as <-. simpl. now repeat split.
  - destruct (showApiKeySetup st); [| discriminate].
    injection Hstep as <-. simpl. now repeat split.
  - destruct (showApiKeySetup st); [| discriminate].
    injection Hstep as <-. unfold handleProviderChange.
    destruct (getItem (apiKeyItem (providerName p0)) ls) as [k |];
      [destruct (isEmpty k) |]; simpl; now repeat split.
  - destruct (showApiKeySetup st); [| discriminate].
    unfold handleApiKeySubmit in Hstep.
    destruct (isEmpty (trim (tempApiKey st)));
      injection Hstep as <-; simpl; now repeat split.
Qed.

Lemma busy_run_frame (E : Js.Engine) (es : list Event) (s : Session) (p : Pending) :
  noSettle es ->
  isLoading (state (world s)) = true -> inFlight s = [p] ->
  messages (state (world (runEvents E s es))) = messages (state (world s))
  /\ isLoading (state (world (runEvents E s es))) = true
  /\ inFlight (runEvents E s es) = [p].
Proof.
  intros Hes. revert s. induction Hes as [| e es He _ IH]; intros s Hl Hfl.
  - now repeat split.
  - change (runEvents E s (e :: es))
      with (runEvents E (match step E s e with Some s' => s' | None => s end) es).
    destruct (step E s e) as [s' |] eqn:Hstep; [| now apply IH].
    destruct (busy_step_frame E s s' e p Hl Hfl He Hstep) as (Hm & Hl' & Hfl').
    destruct (IH s' Hl' Hfl') as (Hm2 & Hl2 & Hfl2).
    rewrite Hm2, Hm. now repeat split.
Qed.

Lemma runEvents_app (E : Js.Engine) (s : Session) (es1 es2 : list Event) :
  runEvents E s (es1 ++ es2) = runEvents E (runEvents E s es1) es2.
Proof. unfold runEvents. apply fold_left_app. Qed.

Lemma exchange_through_user_events
  (E : Js.Engine) (ls : Storage) (s : Session) (t t2 : Tick)
  (es : list Event) (out : FetchOutcome) :
  reachable E ls s ->
  view (state (world s)) = ChatView ->
  sendDisabled (state (world s)) = false ->
  noSettle es ->
  let s' := runEvents E s (Submit t :: es ++ [Settle out t2]) in
  messages (state (world s'))
  = (messages (state (world s))
     ++ [ {| id := intToString (dateNow t);
             content := Js.Str (trim (input (state (world s))));
             role := user;
             timestamp := newDate t |};
          {| id := intToString (dateNow t2);
             content := replyContent E (provider (state (world s))) out;
             role := assistant;
             timestamp := newDate t2 |} ])%list
  /\ isLoading (state (world s')) = false
  /\ inFlight s' = [].
Proof.
  intros Hr Hv Hd Hes. cbv zeta.
  destruct (reachable_inv E ls s Hr) as (Hsf & Hkey & _).
  unfold view in Hv.
  destruct (showApiKeySetup (state (world s))) eqn:Hsetup; [discriminate|].
  specialize (Hkey eq_refl).
  unfold sendDisabled in Hd. apply orb_false_iff in Hd. destruct Hd as [Hi Hl].
  apply isEmpty_false in Hi.
  destruct Hsf as [[_ Hfl] | [Hl' _]]; [| congruence].
  set (p := {| request := fetchRequest (state (world s)) (trim (input (state (world s))));
               closureProvider := provider (state (world s)) |}).
  set (s1 := {| world :=
                  {| state :=
                       setIsLoading true
                         (addMessage (Js.Str (trim (input (state (world s)))))
                            user t (setInput "" (state (world s))));
                     console := console (world s) |};
                storage := storage s; inFlight := [p];
                sent := (sent s ++ [request p])%list |}).
  assert (Hstep : step E s (Submit t) = Some s1).
  { unfold step. rewrite Hsetup.
    rewrite (handleSubmit_accepted _ t Hi Hl Hkey). unfold accepted.
    now rewrite Hfl. }
  change (runEvents E s (Submit t :: es ++ [Settle out t2]))
    with (runEvents E (match step E s (Submit t) with Some s' => s' | None => s end)
            (es ++ [Settle out t2])).
  rewrite Hstep, runEvents_app.
  destruct (busy_run_frame E es s1 p Hes eq_refl eq_refl) as (Hm & Hl2 & Hfl2).
  set (s2 := runEvents E s1 es) in *.
  unfold runEvents. simpl fold_left. unfold step. rewrite Hfl2.
  rewrite handleSubmit_resume_eq. simpl.
  rewrite Hm. subst s1. simpl. rewrite <- app_assoc. now repeat split.
Qed.

(** X11: on a storage whose recorded provider, if any, is not a name that
    every object inherits, the component mounts into a session, and in
    every session it can then reach a submission made with the send button
    enabled completes as one exchange whatever the user does before the
    request settles (further submissions, the settings opened, another
    provider selected, a secret saved): the transcript gains the user entry
    and then one assistant entry, read from the response in the shape of
    the provider that was active at the submission, and the session is
    ready again. *)
Theorem exchange_completes_through_user_events (E : Js.Engine) (ls : Storage) :
  recordedProviderCovered ls ->
  (exists s0, startSession ls = Some s0)
  /\ forall (s : Session) (t t2 : Tick) (es : list Event) (out : FetchOutcome),
       reachable E ls s ->
       view (state (world s)) = ChatView ->
       sendDisabled (state (world s)) = false ->
       noSettle es ->
       let s' := runEvents E s (Submit t :: es ++ [Settle out t2]) in
       messages (state (world s'))
       = (messages (state (world s))
          ++ [ {| id := intToString (dateNow t);
                  content := Js.Str (trim (input (state (world s))));
                  role := user;
                  timestamp := newDate t |};
               {| id := intToString (dateNow t2);
                  content := replyContent E (provider (state (world s))) out;
                  role := assistant;
                  timestamp := newDate t2 |} ])%list
       /\ isLoading (state (world s')) = false
       /\ inFlight s' = [].
Proof.
  intros Hc. split; [now apply startSession_defined|].
  intros s t t2 es out Hr Hv Hd Hes.
  exact (exchange_through_user_events E ls s t t2 es out Hr Hv Hd Hes).
Qed.

Lemma exchange_completes_through_user_events_witness :
  map (fun m => (role m, content m))
      (messages (state (world
         (runEvents sampleEngine sampleSession
            (Submit (sampleTick 1700000000000)
             :: sampleBusyEvents
             ++ [Settle (sampleReply "Hi there") (sampleTick 1700000000900)])))))
  = [(user, Js.Str "Hello"); (assistant, Js.Str "Hi there")].
Proof.
  assert (Hes : noSettle sampleBusyEvents) by (repeat constructor).
  assert (Hc : recordedProviderCovered sampleStorage) by reflexivity.
  rewrite (proj1 (proj2 (exchange_completes_through_user_events
                           sampleEngine sampleStorage Hc)
                    sampleSession
                    (sampleTick 1700000000000) (sampleTick 1700000000900)
                    sampleBusyEvents (sampleReply "Hi there")
                    (sampleSession_reachable sampleEngine) eq_refl eq_refl Hes)).
  reflexivity.
Defined.

(** ** Reading a response *)

Lemma get_throws_iff (E : Js.Engine) (v : Js.value) (k : string) :
  (exists e, Js.get E v k = Js.Throw e) <-> Js.isNullish v = true.
Proof.
  destruct v; simpl; split; intros H; try reflexivity; try discriminate;
    try (destruct H; discriminate); eauto.
Qed.

Lemma first_throws_iff (E : Js.Engine) (v : Js.value) :
  (exists e, Js.first E v = Js.Throw e) <-> Js.isNullish v = true.
Proof.
  destruct v as [| | b | q | s | items | props]; simpl; split; intros H;
    try reflexivity; try discriminate; try (destruct H; discriminate); eauto.
  destruct s; destruct H; discriminate.
Qed.

Lemma getOpt_normal (E : Js.Engine) (v : Js.value) (k : string) :
  exists a, Js.getOpt E v k = Js.Normal a.
Proof. unfold Js.getOpt, Js.get. destruct v; simpl; eauto. Qed.




Lemma checkOk_other_status
  (E : Js.Engine) (p : AIProvider) (r : Response) :
  ok r = false -> hasOwnText p (status r) = false ->
  checkOk E p r
  = (txt <- statusAndMessage E r (awaitJsonOrEmpty r) ;;
     Js.Throw (Js.Error (errorPrefix p ++ txt))).
Proof.
  intros Hok Hown. unfold checkOk. rewrite Hok. simpl negb. cbv iota.
  destruct p; simpl in Hown.
  - apply orb_false_iff in Hown. destruct Hown as [H401 H429].
    now rewrite H429, H401.
  - apply orb_false_iff in Hown. destruct Hown as [Hown H429].
    now rewrite Hown, H429.
Qed.

(** X13: a failure status without a text of its own gives the provider's
    prefix, the status and the provider's message: the message of the
    body's [error] when it is a text that is not empty, and
    ["Unknown error"] when the body is not JSON or is an object without
    [error]. *)
Theorem other_failure_reports_status_and_message
  (E : Js.Engine) (p : AIProvider) (r : Response) :
  ok r = false -> hasOwnText p (status r) = false ->
  (forall props eprops m,
      json r = BodyJson (Js.Obj props) ->
      Js.lookup "error" props = Js.Obj eprops ->
      Js.lookup "message" eprops = Js.Str m -> m <> "" ->
      replyContent E p (Resolved r)
      = Js.Str ("Error: " ++ errorPrefix p ++ intToString (status r) ++ " - " ++ m))
  /\ (forall e,
        json r = BodyReject e ->
        replyContent E p (Resolved r)
        = Js.Str ("Error: " ++ errorPrefix p ++ intToString (status r)
                  ++ " - Unknown error"))
  /\ (forall props,
        json r = BodyJson (Js.Obj props) ->
        Js.isNullish (Js.lookup "error" props) = true ->
        replyContent E p (Resolved r)
        = Js.Str ("Error: " ++ errorPrefix p ++ intToString (status r)
                  ++ " - Unknown error")).
Proof.
  intros Hok Hown.
  assert (Hrc : forall txt,
             statusAndMessage E r (awaitJsonOrEmpty r) = Js.Normal txt ->
             replyContent E p (Resolved r)
             = Js.Str ("Error: " ++ errorPrefix p ++ txt)).
  { intros txt Htxt. unfold replyContent, assistantMessage. simpl.
    rewrite (checkOk_other_status E p r Hok Hown), Htxt. reflexivity. }
  repeat split.
  - intros props eprops m Hj He Hm Hne. apply Hrc.
    unfold statusAndMessage, errorField, awaitJsonOrEmpty. rewrite Hj. simpl.
    rewrite He. simpl. rewrite Hm. unfold Js.or_else. simpl.
    apply isEmpty_false in Hne. now rewrite Hne.
  - intros e Hj. apply Hrc.
    unfold statusAndMessage, errorField, awaitJsonOrEmpty. now rewrite Hj.
  - intros props Hj He. apply Hrc.
    unfold statusAndMessage, errorField, awaitJsonOrEmpty. rewrite Hj. simpl.
    unfold Js.getOpt. now rewrite He.
Qed.

Lemma other_failure_reports_status_and_message_witness :
  replyContent sampleEngine openai (Resolved sampleServerError)
  = Js.Str "Error: OpenAI API Error: 500 - The server had an error"
  /\ replyContent sampleEngine gemini (Resolved sampleServerError)
     = Js.Str "Error: Gemini API Error: 500 - The server had an error".
Proof.
  split.
  - apply (proj1 (other_failure_reports_status_and_message
                    sampleEngine openai sampleServerError eq_refl eq_refl)
             [("error", Js.Obj [("message", Js.Str "The server had an error")])]
             [("message", Js.Str "The server had an error")]
             "The server had an error" eq_refl eq_refl eq_refl).
    discriminate.
  - apply (proj1 (other_failure_reports_status_and_message
                    sampleEngine gemini sampleServerError eq_refl eq_refl)
             [("error", Js.Obj [("message", Js.Str "The server had an error")])]
             [("message", Js.Str "The server had an error")]
             "The server had an error" eq_refl eq_refl eq_refl).
    discriminate.
Defined.

(** X14: a success response whose body has the reply text where the
    provider puts it, as a text that is not empty, gives that text as the
    assistant entry, unchanged; where the text is empty, it gives the
    fallback text. *)
Theorem reply_text_is_passed_on
  (E : Js.Engine) (code : Z) (props cprops mprops : list (string * Js.value))
  (rest : list Js.value) (txt : string) :
  ok {| status := code; json := BodyJson (Js.Obj props) |} = true ->
  (Js.lookup "choices" props = Js.Arr (Js.Obj cprops :: rest) ->
   Js.lookup "message" cprops = Js.Obj mprops ->
   Js.lookup "content" mprops = Js.Str txt ->
   replyContent E openai
     (Resolved {| status := code; json := BodyJson (Js.Obj props) |})
   = Js.Str (if isEmpty txt then fallbackText else txt))
  /\ (forall pprops prest,
        Js.lookup "candidates" props = Js.Arr (Js.Obj cprops :: rest) ->
        Js.lookup "content" cprops = Js.Obj mprops ->
        Js.lookup "parts" mprops = Js.Arr (Js.Obj pprops :: prest) ->
        Js.lookup "text" pprops = Js.Str txt ->
        replyContent E gemini
          (Resolved {| status := code; json := BodyJson (Js.Obj props) |})
        = Js.Str (if isEmpty txt then fallbackText else txt)).
Proof.
  intros Hok. split.
  - intros Hc Hm Ht. unfold replyContent, assistantMessage, checkOk.
    simpl awaitFetch. simpl Js.bind at 1. rewrite Hok. simpl.
    rewrite Hc. simpl. rewrite Hm. simpl. rewrite Ht.
    unfold Js.or_else. simpl. now destruct (isEmpty txt).
  - intros pprops prest Hc Hm Hp Ht. unfold replyContent, assistantMessage, checkOk.
    simpl awaitFetch. simpl Js.bind at 1. rewrite Hok. simpl.
    rewrite Hc. simpl. rewrite Hm. simpl. rewrite Hp. simpl. rewrite Ht.
    unfold Js.or_else. simpl. now destruct (isEmpty txt).
Qed.

Lemma reply_text_is_passed_on_witness :
  replyContent sampleEngine gemini
    (Resolved {| status := 200; json := BodyJson sampleGeminiReply |})
  = Js.Str "Hola".
Proof.
  apply (proj2 (reply_text_is_passed_on sampleEngine 200
                  [("candidates",
                    Js.Arr [Js.Obj [("content",
                      Js.Obj [("parts", Js.Arr [Js.Obj [("text", Js.Str "Hola")]])])]])]
                  [("content",
                    Js.Obj [("parts", Js.Arr [Js.Obj [("text", Js.Str "Hola")]])])]
                  [("parts", Js.Arr [Js.Obj [("text", Js.Str "Hola")]])]
                  [] "Hola" eq_refl)
           [("text", Js.Str "Hola")] [] eq_refl eq_refl eq_refl eq_refl).
Defined.

(** X15: reading the reply of the chat-completion provider throws exactly
    when the body is [null] or has no list of choices (the list is
    [undefined] or [null]); in every other case it gives a value: the
    reply or the fallback text. *)
Theorem openai_reply_throws_iff (E : Js.Engine) (data : Js.value) :
  ((exists e, replyText E openai data = Js.Throw e)
   <-> Js.isNullish data = true
       \/ exists choices, Js.get E data "choices" = Js.Normal choices
                          /\ Js.isNullish choices = true)
  /\ ((exists a, replyText E openai data = Js.Normal a)
      <-> exists choices, Js.get E data "choices" = Js.Normal choices
                          /\ Js.isNullish choices = false).
Proof.
  unfold replyText.
  destruct (Js.get E data "choices") as [ch | e0] eqn:Hg.
  - assert (Hd : Js.isNullish data = false).
    { destruct (Js.isNullish data) eqn:Hn; [| reflexivity].
      apply (get_throws_iff E data "choices") in Hn.
      destruct Hn as [e He]. congruence. }
    simpl.
    destruct (Js.first E ch) as [c0 | e1] eqn:Hf.
    + assert (Hch : Js.isNullish ch = false).
      { destruct (Js.isNullish ch) eqn:Hn; [| reflexivity].
        apply (first_throws_iff E ch) in Hn. destruct Hn as [e He]. congruence. }
      simpl.
      destruct (getOpt_normal E c0 "message") as [m ->]. simpl.
      destruct (getOpt_normal E m "content") as [c ->]. simpl.
      split; split.
      * intros [e He]. discriminate.
      * intros [Hn | (ch' & Hch' & Hn)]; [congruence|].
        injection Hch' as <-. congruence.
      * intros _. eauto.
      * intros _. eauto.
    + assert (Hch : Js.isNullish ch = true)
        by (apply (first_throws_iff E ch); eauto).
      simpl. split; split.
      * intros _. right. eauto.
      * intros _. eauto.
      * intros [a Ha]. discriminate.
      * intros (ch' & Hch' & Hn). injection Hch' as <-. congruence.
  - assert (Hd : Js.isNullish data = true)
      by (apply (get_throws_iff E data "choices"); eauto).
    simpl. split; split.
    + intros _. now left.
    + intros _. eauto.
    + intros [a Ha]. discriminate.
    + intros (ch' & Hch' & _). discriminate.
Qed.

(** ** Switching provider *)

Lemma handleProviderChange_stored
  (p : AIProvider) (ls : Storage) (st : State) (k : string) :
  getItem (apiKeyItem (providerName p)) ls = Some k -> k <> "" ->
  handleProviderChange p ls st
  = setTempApiKey k (setApiKey k (setProvider p st)).
Proof.
  intros Hk Hne. unfold handleProviderChange. rewrite Hk.
  apply isEmpty_false in Hne. now rewrite Hne.
Qed.

Lemma handleProviderChange_messages (p : AIProvider) (ls : Storage) (st : State) :
  messages (handleProviderChange p ls st) = messages st.
Proof.
  unfold handleProviderChange.
  destruct (getItem (apiKeyItem (providerName p)) ls) as [k |];
    [destruct (isEmpty k) |]; reflexivity.
Qed.

(** X16: after a secret is saved for a provider, selecting any provider
    and then the first one again brings the saved secret back, as the
    active secret and in the field of the setup. *)
Theorem selecting_provider_again_restores_secret
  (st : State) (ls : Storage) (q : AIProvider) :
  trim (tempApiKey st) <> "" ->
  let st' := fst (handleApiKeySubmit st ls) in
  let ls' := snd (handleApiKeySubmit st ls) in
  let back := handleProviderChange (provider st) ls'
                (handleProviderChange q ls' st') in
  provider back = provider st
  /\ apiKey back = tempApiKey st
  /\ tempApiKey back = tempApiKey st
  /\ messages back = messages st.
Proof.
  intros H. cbv zeta. rewrite (handleApiKeySubmit_saved st ls H). simpl fst. simpl snd.
  set (ls' := setItem "ai-provider" _ _).
  assert (Hk : getItem (apiKeyItem (providerName (provider st))) ls'
               = Some (tempApiKey st)).
  { subst ls'. rewrite getItem_setItem_other
      by (intros Heq; symmetry in Heq;
          now apply apiKeyItem_not_provider_item in Heq).
    apply getItem_setItem_same. }
  rewrite (handleProviderChange_stored (provider st) ls' _ (tempApiKey st) Hk)
    by now apply trim_nonempty_nonempty.
  simpl. repeat split. now rewrite handleProviderChange_messages.
Qed.

Lemma selecting_provider_again_restores_secret_witness :
  apiKey (handleProviderChange gemini
            (snd (handleApiKeySubmit sampleSetupState sampleStorage))
            (handleProviderChange openai
               (snd (handleApiKeySubmit sampleSetupState sampleStorage))
               (fst (handleApiKeySubmit sampleSetupState sampleStorage))))
  = "AIza-test".
Proof.
  assert (Hn : trim (tempApiKey sampleSetupState) <> "") by discriminate.
  exact (proj1 (proj2 (selecting_provider_again_restores_secret
                         sampleSetupState sampleStorage openai Hn))).
Defined.

(** ** The page *)

(** X17: once the eye button has hidden the controls, they are gone for
    good: the button and the slider are no longer rendered, so whatever
    follows, the controls stay hidden and the opacity stays what it was. *)
Theorem hidden_controls_stay_hidden (s : IndexState) (es : list IndexEvent) :
  isControlsVisible s = true ->
  runIndex s (ToggleVisibility :: es)
  = {| opacity := opacity s; isControlsVisible := false |}.
Proof.
  intros Hv. unfold runIndex. simpl. unfold indexStep at 2. rewrite Hv. simpl.
  induction es as [| e es IH]; [reflexivity|]. simpl. exact IH.
Qed.

Lemma hidden_controls_stay_hidden_witness :
  runIndex initialIndexState
    [ToggleVisibility; ToggleVisibility; OpacityChange (1 # 2)]
  = {| opacity := 95 # 100; isControlsVisible := false |}.
Proof.
  apply (hidden_controls_stay_hidden initialIndexState
           [ToggleVisibility; OpacityChange (1 # 2)]).
  reflexivity.
Defined.

(** X18: reading the reply of the generate-content provider throws
    exactly when the body is [null], or has no list of candidates, or its
    first candidate has a content without a list of parts; a missing first
    candidate or a missing content gives the fallback text instead. *)
Theorem gemini_reply_throws_iff (E : Js.Engine) (data : Js.value) :
  (exists e, replyText E gemini data = Js.Throw e)
  <-> Js.isNullish data = true
      \/ exists candidates,
           Js.get E data "candidates" = Js.Normal candidates
           /\ (Js.isNullish candidates = true
               \/ exists candidate c parts,
                    Js.first E candidates = Js.Normal candidate
                    /\ Js.getOpt E candidate "content" = Js.Normal c
                    /\ Js.isNullish c = false
                    /\ Js.get E c "parts" = Js.Normal parts
                    /\ Js.isNullish parts = true).
Proof.
  unfold replyText.
  destruct (Js.get E data "candidates") as [ch | e0] eqn:Hg.
  - assert (Hd : Js.isNullish data = false).
    { destruct (Js.isNullish data) eqn:Hn; [| reflexivity].
      apply (get_throws_iff E data "candidates") in Hn.
      destruct Hn as [e He]. congruence. }
    simpl.
    destruct (Js.first E ch) as [c0 | e1] eqn:Hf.
    + assert (Hch : Js.isNullish ch = false).
      { destruct (Js.isNullish ch) eqn:Hn; [| reflexivity].
        apply (first_throws_iff E ch) in Hn. destruct Hn as [e He]. congruence. }
      simpl.
      destruct (getOpt_normal E c0 "content") as [c Hc]. rewrite Hc. simpl.
      destruct (Js.isNullish c) eqn:Hcn.
      * simpl. split.
        -- intros [e He]. discriminate.
        -- intros [Hn | (ch' & Hch' & [Hn | (c0' & c' & parts & H1 & H2 & H3 & _)])];
             congruence.
      * destruct (Js.get E c "parts") as [parts | e2] eqn:Hp.
        -- simpl.
           destruct (Js.first E parts) as [part | e3] eqn:Hfp.
           ++ assert (Hpn : Js.isNullish parts = false).
              { destruct (Js.isNullish parts) eqn:Hn; [| reflexivity].
                apply (first_throws_iff E parts) in Hn.
                destruct Hn as [e He]. congruence. }
              simpl. destruct (getOpt_normal E part "text") as [txt ->]. simpl.
              split.
              ** intros [e He]. discriminate.
              ** intros [Hn | (ch' & Hch' & [Hn | (c0' & c' & parts' & H1 & H2 & H3 & H4 & H5)])];
                   congruence.
           ++ assert (Hpn : Js.isNullish parts = true)
                by (apply (first_throws_iff E parts); eauto).
              simpl. split; [| eauto].
              intros _. right. exists ch. split; [reflexivity|]. right.
              exists c0, c, parts. now repeat split.
        -- assert (Hcn' : Js.isNullish c = true)
             by (apply (get_throws_iff E c "parts"); eauto).
           congruence.
    + assert (Hch : Js.isNullish ch = true)
        by (apply (first_throws_iff E ch); eauto).
      simpl. split; [| eauto]. intros _. right. eauto.
  - assert (Hd : Js.isNullish data = true)
      by (apply (get_throws_iff E data "candidates"); eauto).
    simpl. split; [| eauto]. intros _. now left.
Qed.

(** ** The earlier component *)

(** X19: a secret saved by the earlier component, which records no
    provider, is found by the next mount of that component and by the
    mount of the present one: the present one holds it for the
    chat-completion provider and shows the chat. *)
Theorem earlier_secret_is_restored (st : V1.State) (ls : Storage) :
  trim (V1.tempApiKey st) <> "" ->
  getItem "ai-provider" ls = None ->
  mountEffect (snd (V1.handleApiKeySubmit st ls)) initialState
  = Some (setApiKey (V1.tempApiKey st) initialState)
  /\ V1.apiKey (V1.mountEffect (snd (V1.handleApiKeySubmit st ls)) V1.initialState)
     = V1.tempApiKey st
  /\ V1.showApiKeySetup
       (V1.mountEffect (snd (V1.handleApiKeySubmit st ls)) V1.initialState)
     = false.
Proof.
  intros H Hp. unfold V1.handleApiKeySubmit.
  pose proof (trim_nonempty_nonempty _ H) as Hne.
  apply isEmpty_false in H. rewrite H. simpl snd.
  unfold mountEffect, V1.mountEffect.
  rewrite getItem_setItem_other by discriminate. rewrite Hp. simpl orOpenai.
  change (apiKeyItem "openai") with "openai-api-key".
  rewrite getItem_setItem_same.
  apply isEmpty_false in Hne. now rewrite Hne.
Qed.

Lemma earlier_secret_is_restored_witness :
  mountEffect (snd (V1.handleApiKeySubmit sampleV1SetupState [])) initialState
  = Some (setApiKey "sk-old" initialState).
Proof.
  apply (proj1 (earlier_secret_is_restored sampleV1SetupState []
                  ltac:(discriminate) eq_refl)).
Defined.

(** X20: with the chat-completion provider active, a submission does to
    the present component what it does to the earlier one: the same guard,
    the same change of the cells they share, and the same request given
    to [fetch]. *)
Theorem openai_submission_as_earlier (st : State) (t : Tick) :
  provider st = openai ->
  V1.handleSubmit (asV1 st) t
  = (asV1 (fst (handleSubmit st t)),
     option_map request (snd (handleSubmit st t))).
Proof.
  intros Hp. unfold V1.handleSubmit, handleSubmit. simpl.
  destruct (isEmpty (trim (input st)) || isLoading st || isEmpty (apiKey st));
    [reflexivity|].
  simpl. unfold V1.fetchRequest, fetchRequest, asV1. rewrite Hp. reflexivity.
Qed.

Lemma openai_submission_as_earlier_witness :
  snd (V1.handleSubmit (asV1 (state (world sampleSession)))
                       (sampleTick 1700000000000))
  = Some (fetchRequest (state (world sampleSession)) "Hello").
Proof.
  rewrite (openai_submission_as_earlier (state (world sampleSession))
             (sampleTick 1700000000000) eq_refl).
  reflexivity.
Defined.

(** X21: on the chat-completion provider the present component reads a
    settled request as the earlier one did: the same reply, fallback or
    error for a rejection, a success status and a status 429; for any
    other failure status both throw, with texts of different wording. *)
Theorem openai_reading_as_earlier (E : Js.Engine) (out : FetchOutcome) :
  (rewordedSince out = false ->
   V1.assistantMessage E out = assistantMessage E openai out)
  /\ (rewordedSince out = true ->
      exists e1 e2,
        V1.assistantMessage E out = Js.Throw e1
        /\ assistantMessage E openai out = Js.Throw e2).
Proof.
  destruct out as [r | e]; simpl.
  - unfold V1.assistantMessage, assistantMessage, V1.checkOk, checkOk. simpl.
    destruct (ok r) eqn:Hok; simpl.
    + split; [reflexivity | discriminate].
    + destruct (status r =? 429) eqn:H429; simpl.
      * split; [| discriminate]. intros _.
        destruct (errorField E (awaitJsonOrEmpty r) "code") as [code |]; simpl;
          [| reflexivity].
        destruct (Js.strictEqualsString code "insufficient_quota");
          [reflexivity|].
        apply Z.eqb_eq in H429. rewrite H429. reflexivity.
      * split; [discriminate|]. intros _.
        destruct (status r =? 401); simpl; [eauto|].
        destruct (statusAndMessage E r (awaitJsonOrEmpty r)); simpl; eauto.
  - split; [reflexivity | discriminate].
Qed.

Lemma openai_reading_as_earlier_witness :
  V1.assistantMessage sampleEngine (sampleReply "Hi there")
  = assistantMessage sampleEngine openai (sampleReply "Hi there").
Proof.
  apply (proj1 (openai_reading_as_earlier sampleEngine (sampleReply "Hi there"))).
  reflexivity.
Defined.

Lemma gemini_reply_throws_iff_witness :
  exists e, replyText sampleEngine gemini sampleCutOffBody = Js.Throw e.
Proof.
  apply (proj2 (gemini_reply_throws_iff sampleEngine sampleCutOffBody)).
  right. eexists. split; [reflexivity|]. right.
  do 3 eexists. repeat split; reflexivity.
Defined.

(** ** Identifiers through a session *)

Lemma playSubmissions_accepted
  (E : Js.Engine) (subs : list Submission) (w : World) :
  isLoading (state w) = false -> apiKey (state w) <> "" ->
  Forall (fun s => trim (text s) <> "") subs ->
  messages (state (fold_left (playSubmission E) subs w))
  = (messages (state w) ++ flat_map (exchange E (provider (state w))) subs)%list.
Proof.
  intros Hl Hk Hs. revert w Hl Hk.
  induction Hs as [| s subs Ht _ IH]; intros w Hl Hk.
  - simpl. now rewrite app_nil_r.
  - simpl fold_left.
    destruct (playSubmission_accepted E w s Hl Hk Ht)
      as (Hm & Hl' & Hk' & Hp' & _).
    rewrite IH by (rewrite ?Hk'; assumption).
    rewrite Hm, Hp'. simpl flat_map. now rewrite <- app_assoc.
Qed.

Lemma exchange_ids (E : Js.Engine) (p : AIProvider) (subs : list Submission) :
  map id (flat_map (exchange E p) subs)
  = map intToString (flat_map readings subs).
Proof.
  induction subs as [| s subs IH]; [reflexivity|].
  simpl. now rewrite IH.
Qed.

(** X22: through a session begun on an empty transcript, the identifiers
    of the entries are the readings of [Date.now()] at their adding, in
    decimal; so the identifiers are all different exactly when the
    readings are. *)
Theorem identifiers_distinct_iff_readings_distinct
  (E : Js.Engine) (subs : list Submission) (w : World) :
  messages (state w) = [] ->
  isLoading (state w) = false -> apiKey (state w) <> "" ->
  Forall (fun s => trim (text s) <> "") subs ->
  let w' := fold_left (playSubmission E) subs w in
  map id (messages (state w')) = map intToString (flat_map readings subs)
  /\ (NoDup (map id (messages (state w'))) <-> NoDup (flat_map readings subs)).
Proof.
  intros Hm Hl Hk Hs. cbv zeta.
  rewrite (playSubmissions_accepted E subs w Hl Hk Hs), Hm. simpl app.
  rewrite exchange_ids. split; [reflexivity|]. split.
  - apply NoDup_map_inv.
  - apply NoDup_map_NoDup_ForallPairs. intros a b _ _. apply intToString_inj.
Qed.

Lemma identifiers_distinct_iff_readings_distinct_witness :
  NoDup (map id (messages (state (fold_left (playSubmission sampleEngine)
                                            sampleSubmissions sampleKeyedWorld)))).
Proof.
  assert (Hs : Forall (fun s => trim (text s) <> "") sampleSubmissions)
    by (repeat constructor; discriminate).
  assert (Hk : apiKey (state sampleKeyedWorld) <> "") by discriminate.
  apply (proj2 (identifiers_distinct_iff_readings_distinct
                  sampleEngine sampleSubmissions sampleKeyedWorld
                  eq_refl eq_refl Hk Hs)).
  repeat constructor; simpl; intuition discriminate.
Defined.

(** ** Submitting without a credential *)




(** ** A request that fails *)

(** C6, as stated, fails: the request of a submission is refused after the
    user has opened the settings and selected the provider for which
    nothing is stored.  The error is reported and the in-flight flag
    cleared, but the session then holds no secret and awaits a credential:
    it is not [Idle]. *)
Lemma failed_request_not_idle_counterexample :
  exists s1 s2 s3 s4,
    step sampleEngine sampleSession (Submit (sampleTick 1700000000000)) = Some s1
    /\ inFlight s1 <> []
    /\ step sampleEngine s1 OpenSettings = Some s2
    /\ step sampleEngine s2 (SelectProvider gemini) = Some s3
    /\ isFailure (Rejected (Js.Error "Failed to fetch")) = true
    /\ step sampleEngine s3
         (Settle (Rejected (Js.Error "Failed to fetch"))
                 (sampleTick 1700000000900)) = Some s4
    /\ s4 = runEvents sampleEngine sampleSession sampleSwitchEvents
    /\ map (fun m => (role m, content m)) (messages (state (world s4)))
       = [(user, Js.Str "Hello"); (assistant, Js.Str "Error: Failed to fetch")]
    /\ isLoading (state (world s4)) = false
    /\ phase (state (world s4)) = AwaitingCredential
    /\ phase (state (world s4)) <> Idle.
Proof.
  do 4 eexists.
  split; [reflexivity|]. split; [discriminate|].
  split; [reflexivity|]. split; [reflexivity|]. split; [reflexivity|].
  split; [reflexivity|]. split; [reflexivity|]. split; [reflexivity|].
  split; [reflexivity|]. split; [reflexivity | discriminate].
Qed.

(** C6, amended: in every session the component can reach, when the
    request in flight fails, by a status that is not one of success or by
    a rejection of [fetch], whatever the user has done since the
    submission, the [try] block throws, the error is caught and its
    message is appended after ["Error: "] as an assistant entry of the
    transcript, the in-flight flag, which was set, is cleared, and the
    handler completes normally: nothing is thrown further.  The session
    is then [Idle] if it holds a secret for the active provider, and
    awaits a credential if it holds none. *)
Theorem failed_request_is_reported_and_flag_cleared
  (E : Js.Engine) (ls : Storage) (s : Session) (p : Pending)
  (out : FetchOutcome) (t : Tick) :
  reachable E ls s ->
  inFlight s = [p] ->
  isFailure out = true ->
  exists (e : Js.exn) (s' : Session),
    assistantMessage E (closureProvider p) out = Js.Throw e
    /\ snd (handleSubmit_resume E (closureProvider p) out t (world s))
       = Js.Normal tt
    /\ step E s (Settle out t) = Some s'
    /\ isLoading (state (world s)) = true
    /\ messages (state (world s'))
       = (messages (state (world s))
          ++ [ {| id := intToString (dateNow t);
                  content := Js.Str ("Error: " ++ Js.message e);
                  role := assistant;
                  timestamp := newDate t |} ])%list
    /\ isLoading (state (world s')) = false
    /\ inFlight s' = []
    /\ phase (state (world s'))
       = (if isEmpty (apiKey (state (world s))) then AwaitingCredential else Idle).
Proof.
  intros Hr Hfl Hf.
  destruct (reachable_inv E ls s Hr) as (Hsf & _).
  assert (Hl : isLoading (state (world s)) = true).
  { destruct Hsf as [[_ Hnil] | [Hl _]]; [congruence | exact Hl]. }
  destruct (assistantMessage_failure_throws E (closureProvider p) out Hf)
    as [e He].
  exists e. eexists. split; [exact He|].
  split; [now rewrite handleSubmit_resume_eq|].
  unfold step. rewrite Hfl. split; [reflexivity|].
  split; [exact Hl|].
  rewrite handleSubmit_resume_eq. unfold replyContent. rewrite He.
  simpl. unfold phase. simpl. repeat split.
Qed.

Lemma failed_request_is_reported_and_flag_cleared_witness :
  exists (e : Js.exn) (s' : Session),
    assistantMessage sampleEngine openai (Rejected (Js.Error "Failed to fetch"))
    = Js.Throw e
    /\ snd (handleSubmit_resume sampleEngine openai
              (Rejected (Js.Error "Failed to fetch"))
              (sampleTick 1700000000030) (world sampleBusySession))
       = Js.Normal tt
    /\ step sampleEngine sampleBusySession
         (Settle (Rejected (Js.Error "Failed to fetch"))
                 (sampleTick 1700000000030)) = Some s'
    /\ isLoading (state (world sampleBusySession)) = true
    /\ messages (state (world s'))
       = (messages (state (world sampleBusySession))
          ++ [ {| id := "1700000000030";
                  content := Js.Str ("Error: " ++ Js.message e);
                  role := assistant;
                  timestamp := 1700000000030 |} ])%list
    /\ isLoading (state (world s')) = false
    /\ inFlight s' = []
    /\ phase (state (world s')) = Idle.
Proof.
  apply (failed_request_is_reported_and_flag_cleared sampleEngine sampleStorage
           sampleBusySession
           {| request := fetchRequest (state (world sampleSession)) "Hello";
              closureProvider := openai |}
           (Rejected (Js.Error "Failed to fetch")) (sampleTick 1700000000030)
           (sampleBusySession_reachable sampleEngine) eq_refl eq_refl).
Defined.

(** ** The texts of the chat-completion provider's failures *)

(** C7 fails on the code: a status 429 whose body is the JSON [null]
    carries no error code, yet the assistant entry is not the rate-limit
    text: reading [errorData.error] throws, and the entry is the engine's
    read error after ["Error: "]. *)
Theorem rate_limit_with_null_body_gives_read_error :
  ok {| status := 429; json := BodyJson Js.Null |} = false
  /\ carriesQuotaCode Js.Null = false
  /\ (forall E,
        replyContent E openai
          (Resolved {| status := 429; json := BodyJson Js.Null |})
        = Js.Str ("Error: " ++ Js.readErrorMessage E Js.Null "error"))
  /\ replyContent sampleEngine openai
       (Resolved {| status := 429; json := BodyJson Js.Null |})
     = Js.Str "Error: Cannot read properties of null (reading 'error')"
  /\ replyContent sampleEngine openai
       (Resolved {| status := 429; json := BodyJson Js.Null |})
     <> Js.Str rateLimitText.
Proof.
  repeat split. discriminate.
Qed.

(** X23: on the chat-completion provider the assistant entry added for a
    response has the content [replyContent].  For a status 429 whose body
    carries the error code ["insufficient_quota"] (an object whose [error]
    is an object whose [code] is that text) it is the quota text, which
    mentions the quota and the billing; for a status 429 whose body is not
    JSON, or is any JSON value other than [null] that does not carry that
    code, it is the rate-limit text, a different one; for a status 401 it
    is the invalid-key text, whatever the body. *)
Theorem openai_quota_rate_limit_and_key_texts (E : Js.Engine) :
  (forall out t w,
      messages (state (fst (handleSubmit_resume E openai out t w)))
      = (messages (state w)
         ++ [ {| id := intToString (dateNow t);
                 content := replyContent E openai out;
                 role := assistant;
                 timestamp := newDate t |} ])%list)
  /\ (forall v,
        carriesQuotaCode v = true ->
        replyContent E openai (Resolved {| status := 429; json := BodyJson v |})
        = Js.Str quotaText)
  /\ (forall v,
        Js.isNullish v = false -> carriesQuotaCode v = false ->
        replyContent E openai (Resolved {| status := 429; json := BodyJson v |})
        = Js.Str rateLimitText)
  /\ (forall e,
        replyContent E openai (Resolved {| status := 429; json := BodyReject e |})
        = Js.Str rateLimitText)
  /\ (forall b,
        replyContent E openai (Resolved {| status := 401; json := b |})
        = Js.Str invalidKeyText)
  /\ quotaText <> rateLimitText
  /\ includes "quota" quotaText = true
  /\ includes "billing" quotaText = true
  /\ includes "quota" rateLimitText = false
  /\ includes "Invalid OpenAI API key" invalidKeyText = true.
Proof.
  split; [| split; [| split; [| split; [| split]]]].
  - intros out t w. now rewrite handleSubmit_resume_eq.
  - intros v Hq. unfold carriesQuotaCode in Hq.
    destruct v as [| | b | q | s | items | props]; try discriminate.
    destruct (Js.lookup "error" props) as [| | b | q | s | items | eprops] eqn:He;
      try discriminate.
    destruct (Js.lookup "code" eprops) as [| | b | q | c | items | cprops] eqn:Hc;
      try discriminate.
    unfold replyContent, assistantMessage, checkOk, errorField. simpl.
    rewrite He. simpl. rewrite Hc. simpl Js.strictEqualsString. rewrite Hq.
    reflexivity.
  - intros v Hn Hq. unfold carriesQuotaCode in Hq.
    unfold replyContent, assistantMessage, checkOk, errorField.
    destruct v as [| | b | q | s | items | props]; try discriminate;
      try reflexivity.
    simpl.
    destruct (Js.lookup "error" props) as [| | b | q | s | items | eprops] eqn:He;
      try reflexivity.
    simpl.
    destruct (Js.lookup "code" eprops) as [| | b | q | c | items | cprops] eqn:Hc;
      try reflexivity.
    simpl Js.strictEqualsString. rewrite Hq. reflexivity.
  - intros e. reflexivity.
  - intros b. reflexivity.
  - repeat split; try reflexivity. discriminate.
Qed.

Lemma openai_quota_rate_limit_and_key_texts_witness :
  replyContent sampleEngine openai
    (Resolved {| status := 429; json := BodyJson sampleQuotaBody |})
  = Js.Str quotaText
  /\ replyContent sampleEngine openai
       (Resolved {| status := 429; json := BodyJson sampleRateBody |})
     = Js.Str rateLimitText.
Proof.
  destruct (openai_quota_rate_limit_and_key_texts sampleEngine)
    as (_ & Hq & Hr & _).
  split.
  - apply Hq. reflexivity.
  - apply Hr; reflexivity.
Defined.
